(** * dialogUI/lib/background.c: the background compositor of startdde

    A shallow embedding of the six functions of [background.c] and the
    properties of them that the specification states.

    The C code is glue over GLib, GTK, cairo and Xlib.  The calls into those
    libraries are modelled as operations of a state-and-failure monad over a
    [World]: the heap of [BackgroundInfo] instances, the live cairo surfaces
    and pixbufs, the realized widgets, the stack of X error traps and the
    chronological trace of library calls.  What the outside answers (the X
    server, the file system, the widget tree) is read from an [Env]. *)

From Stdlib Require Import ZArith List Lia Ascii String PrimInt63 PrimFloat.
From stdpp Require Import base option list gmap strings.

Local Open Scope Z_scope.

(** ** C scalar types *)

Definition gint := Z.
Definition guint := Z.
Definition guint32 := Z.
Definition gboolean := Z.
Definition gdouble := float.

Definition TRUE : gboolean := 1.
Definition FALSE : gboolean := 0.

Definition INT_MAX : Z := 2 ^ 31 - 1.

(** Conversion of an integer value to the 32-bit [int]: what happens to a
    [guint] passed for an [int] parameter, or read back by [%d]. *)
Definition gint_of (z : Z) : gint := (z + 2 ^ 31) mod 2 ^ 32 - 2 ^ 31.

(** Conversion of an [int] constant to [double]. *)
Definition gdouble_of_int (n : PrimInt63.int) : gdouble := PrimFloat.of_uint63 n.

(** ** Handles of the library objects *)

Definition GtkWidget := positive.
Definition GdkWindow := positive.
Definition cairo_t := positive.
Definition cairo_surface_t := positive.
Definition GdkPixbuf := positive.
Definition Display := positive.
Definition Visual := positive.
Definition Drawable := Z.

Definition BadDrawable : gint := 9.

Definition nl : string := String "010"%char EmptyString.

Record GError := mkGError {
  g_error_code : gint;
  g_error_message : string
}.

(** A decoded image, as the pixbuf loader hands it out. *)
Record image := mkImage {
  img_width : gint;
  img_height : gint;
  img_pixels : list Z
}.

Record GdkRGBA := mkRGBA {
  red : gdouble;
  green : gdouble;
  blue : gdouble;
  rgba_alpha : gdouble
}.

(** What a live cairo surface is backed by. *)
Inductive surface_obj :=
| XlibSurface (dpy : Display) (drawable : Drawable) (visual : Visual)
    (width height : gint)
| PixbufSurface (img : image) (scale : gint) (for_window : option GdkWindow).

(** ** The instance *)

(** Modelled from the spec: the [BackgroundInfo] struct of [background.h],
    which is not among the sources.  The spec's data model gives it the
    fields [surface], [alphaLevel], [mutex] and [containerHandle];
    [background.c] accesses them as [bg], [alpha], [m] and [container].
    The two pointers are nullable.  The mutex [m] has no state of its own
    here: no function re-enters it, so in a sequential run every
    [g_mutex_lock] succeeds, and the lock and unlock calls are recorded in
    the trace. *)
Record BackgroundInfo := mkBackgroundInfo {
  container : option GtkWidget;
  bg : option cairo_surface_t;
  alpha : gdouble
}.

(** ** The trace

    The library calls in the order they are made, and with them the writes
    to the fields [bg] and [alpha] of an instance ([Eset_bg], [Eset_alpha]),
    so that a trace shows which of them happen between a lock and its
    unlock. *)

Inductive log_arg :=
| ArgInt (z : gint)
| ArgStr (s : string).

Inductive event :=
| Eg_message (fmt : string) (args : list log_arg)
| Eg_warning (fmt : string) (args : list log_arg)
| Eg_new0 (info : positive)
| Eg_free (info : positive)
| Eg_mutex_init (info : positive)
| Eg_mutex_lock (info : positive)
| Eg_mutex_unlock (info : positive)
| Eg_mutex_clear (info : positive)
| Eset_bg (info : positive) (s : option cairo_surface_t)
| Eset_alpha (info : positive) (a : gdouble)
| Ecairo_set_source_surface (cr : cairo_t) (s : option cairo_surface_t)
    (x y : gdouble)
| Ecairo_paint_with_alpha (cr : cairo_t) (a : gdouble)
| Egdk_cairo_set_source_window (cr : cairo_t) (win : option GdkWindow)
    (x y : gdouble)
| Ecairo_paint (cr : cairo_t)
| Egtk_container_get_children (w : GtkWidget)
| Eg_list_free (l : list GtkWidget)
| EXGetGeometry (dpy : Display) (d : Drawable)
| Ecairo_surface_destroy (s : cairo_surface_t)
| Ecairo_xlib_surface_create (s : cairo_surface_t) (dpy : Display)
    (d : Drawable) (visual : Visual) (width height : gint)
| Egdk_pixbuf_new_from_file (file : string)
| Eg_error_free (e : GError)
| Egdk_cairo_surface_create_from_pixbuf (s : cairo_surface_t)
    (pb : GdkPixbuf) (scale : gint) (for_window : option GdkWindow)
| Eg_object_unref (pb : GdkPixbuf)
| Egdk_window_invalidate_rect (win : option GdkWindow)
    (rect : option (gint * gint * gint * gint)) (invalidate_children : gboolean)
| Egtk_widget_realize (w : GtkWidget)
| Egdk_window_set_composited (win : option GdkWindow) (composited : gboolean)
| Eg_signal_connect (w : GtkWidget) (signal : string) (data : positive)
| Egdk_window_set_background_rgba (win : option GdkWindow) (color : GdkRGBA).

(** ** The outside and the state *)

Record Env := mkEnv {
  env_children : GtkWidget -> list GtkWidget;
  env_visible : GtkWidget -> bool;
  env_window : GtkWidget -> GdkWindow;
  env_display : Display;
  env_visual : Visual;
  (** the X server's answer to a geometry request: width and height, or
      nothing when the request raises an X error *)
  env_geometry : Drawable -> option (guint * guint);
  (** the image loader's answer for a path *)
  env_decode : string -> GError + image
}.

Record World := mkWorld {
  infos : gmap positive BackgroundInfo;
  surfaces : gmap positive surface_obj;
  pixbufs : gmap positive image;
  realized : gset positive;
  traps : list gint;
  trace : list event
}.

(** ** The monad: state passing, [None] for undefined behaviour *)

Definition M (A : Type) : Type := World -> option (A * World).

Definition ret {A} (a : A) : M A := fun w => Some (a, w).

Definition bind {A B} (m : M A) (k : A -> M B) : M B :=
  fun w => match m w with
           | Some (a, w') => k a w'
           | None => None
           end.

Declare Scope m_scope.
Delimit Scope m_scope with m.
Notation "x <- c1 ;; c2" := (bind c1 (fun x => c2))
  (at level 100, c1 at next level, right associativity) : m_scope.
Notation "c1 ;; c2" := (bind c1 (fun _ => c2))
  (at level 100, right associativity) : m_scope.

Definition set_infos (f : gmap positive BackgroundInfo) (w : World) : World :=
  mkWorld f (surfaces w) (pixbufs w) (realized w) (traps w) (trace w).
Definition set_surfaces (f : gmap positive surface_obj) (w : World) : World :=
  mkWorld (infos w) f (pixbufs w) (realized w) (traps w) (trace w).
Definition set_pixbufs (f : gmap positive image) (w : World) : World :=
  mkWorld (infos w) (surfaces w) f (realized w) (traps w) (trace w).
Definition set_realized (f : gset positive) (w : World) : World :=
  mkWorld (infos w) (surfaces w) (pixbufs w) f (traps w) (trace w).
Definition set_traps (f : list gint) (w : World) : World :=
  mkWorld (infos w) (surfaces w) (pixbufs w) (realized w) f (trace w).
Definition set_trace (f : list event) (w : World) : World :=
  mkWorld (infos w) (surfaces w) (pixbufs w) (realized w) (traps w) f.

Definition emit (e : event) : M unit :=
  fun w => Some (tt, set_trace (trace w ++ [e]) w).

Definition is_realized (w : World) (wd : GtkWidget) : bool :=
  bool_decide (wd ∈ realized w).

(** ** The library calls

    One operation per function of GLib, GTK, GDK, cairo and Xlib that
    [background.c] calls, named after it. *)

Section Model.

Variable env : Env.

Local Open Scope m_scope.

(** *** Field accesses through the [BackgroundInfo*] *)

Definition load (info : positive) : M BackgroundInfo :=
  fun w => match infos w !! info with
           | Some i => Some (i, w)
           | None => None
           end.

Definition store (info : positive) (i : BackgroundInfo) : M unit :=
  fun w => match infos w !! info with
           | Some _ => Some (tt, set_infos (<[info := i]> (infos w)) w)
           | None => None
           end.

Definition get_bg (info : positive) : M (option cairo_surface_t) :=
  i <- load info ;; ret (bg i).

Definition get_alpha (info : positive) : M gdouble :=
  i <- load info ;; ret (alpha i).

Definition get_container (info : positive) : M (option GtkWidget) :=
  i <- load info ;; ret (container i).

Definition set_bg (info : positive) (s : option cairo_surface_t) : M unit :=
  i <- load info ;;
  store info (mkBackgroundInfo (container i) s (alpha i)) ;;
  emit (Eset_bg info s).

Definition set_alpha (info : positive) (a : gdouble) : M unit :=
  i <- load info ;;
  store info (mkBackgroundInfo (container i) (bg i) a) ;;
  emit (Eset_alpha info a).

(** *** GLib *)

Definition g_message (fmt : string) (args : list log_arg) : M unit :=
  emit (Eg_message fmt args).

Definition g_warning (fmt : string) (args : list log_arg) : M unit :=
  emit (Eg_warning fmt args).

(** [g_new0 (BackgroundInfo, 1)]: a fresh block, all bytes zero. *)
Definition g_new0 : M positive :=
  fun w =>
    let info := fresh (dom (infos w)) in
    Some (info,
          set_trace (trace w ++ [Eg_new0 info])
            (set_infos (<[info := mkBackgroundInfo None None 0%float]> (infos w)) w)).

Definition g_free (info : positive) : M unit :=
  fun w => match infos w !! info with
           | Some _ =>
               Some (tt, set_trace (trace w ++ [Eg_free info])
                           (set_infos (delete info (infos w)) w))
           | None => None
           end.

Definition g_mutex_init (info : positive) : M unit := emit (Eg_mutex_init info).
Definition g_mutex_lock (info : positive) : M unit := emit (Eg_mutex_lock info).
Definition g_mutex_unlock (info : positive) : M unit := emit (Eg_mutex_unlock info).
Definition g_mutex_clear (info : positive) : M unit := emit (Eg_mutex_clear info).

Definition g_list_free (l : list GtkWidget) : M unit := emit (Eg_list_free l).

Definition g_error_free (e : GError) : M unit := emit (Eg_error_free e).

(** [g_object_unref] of a pixbuf that holds its last reference.  A pointer
    that is [NULL] or not a live object is undefined. *)
Definition g_object_unref (pb : option GdkPixbuf) : M unit :=
  fun w => match pb with
           | Some p =>
               match pixbufs w !! p with
               | Some _ =>
                   Some (tt, set_trace (trace w ++ [Eg_object_unref p])
                               (set_pixbufs (delete p (pixbufs w)) w))
               | None => None
               end
           | None => None
           end.

Definition g_signal_connect (w : GtkWidget) (signal : string) (data : positive)
  : M unit :=
  emit (Eg_signal_connect w signal data).

(** *** GTK and GDK *)

Definition gtk_container_get_children (w : GtkWidget) : M (list GtkWidget) :=
  emit (Egtk_container_get_children w) ;; ret (env_children env w).

Definition gtk_widget_get_visible (w : GtkWidget) : M bool :=
  ret (env_visible env w).

(** The window of a widget: [NULL] for the [NULL] widget and for a widget
    that is not realized. *)
Definition gtk_widget_get_window (w : option GtkWidget) : M (option GdkWindow) :=
  fun st =>
    match w with
    | Some wd =>
        if is_realized st wd
        then Some (Some (env_window env wd), st)
        else Some (None, st)
    | None => Some (None, st)
    end.

Definition gtk_widget_realize (w : GtkWidget) : M unit :=
  fun st =>
    Some (tt, set_trace (trace st ++ [Egtk_widget_realize w])
                (set_realized (realized st ∪ {[ w ]}) st)).

Definition gdk_window_invalidate_rect (win : option GdkWindow)
    (rect : option (gint * gint * gint * gint)) (invalidate_children : gboolean)
  : M unit :=
  emit (Egdk_window_invalidate_rect win rect invalidate_children).

Definition gdk_window_set_composited (win : option GdkWindow) (c : gboolean)
  : M unit :=
  emit (Egdk_window_set_composited win c).

Definition gdk_window_set_background_rgba (win : option GdkWindow) (c : GdkRGBA)
  : M unit :=
  emit (Egdk_window_set_background_rgba win c).

Definition gdk_x11_get_default_xdisplay : M Display := ret (env_display env).

Definition gdk_visual_get_system : M Visual := ret (env_visual env).

Definition gdk_x11_visual_get_xvisual (v : Visual) : M Visual := ret v.

Definition gdk_error_trap_push : M unit :=
  fun w => Some (tt, set_traps (0 :: traps w) w).

(** Pops the innermost trap and returns the error code caught in it, 0 for
    none.  Popping with no trap pushed is undefined. *)
Definition gdk_error_trap_pop : M gint :=
  fun w => match traps w with
           | code :: rest => Some (code, set_traps rest w)
           | [] => None
           end.

(** [XGetGeometry (dpy, d, &root, &x, &y, &width, &height, &border, &depth)].
    [out] is what [width] and [height] hold before the call: an X error
    leaves them as they are and is caught by the innermost trap; with no
    trap pushed the default error handler ends the process. *)
Definition XGetGeometry (dpy : Display) (d : Drawable) (out : guint * guint)
  : M (guint * guint) :=
  fun w =>
    let w1 := set_trace (trace w ++ [EXGetGeometry dpy d]) w in
    match env_geometry env d with
    | Some geom => Some (geom, w1)
    | None =>
        match traps w1 with
        | _ :: rest => Some (out, set_traps (BadDrawable :: rest) w1)
        | [] => None
        end
    end.

(** [gdk_pixbuf_new_from_file (file, &error)] with [error] initially [NULL]:
    the pixbuf and what [error] holds afterwards.  Exactly one of the two is
    non-[NULL]. *)
Definition gdk_pixbuf_new_from_file (file : string)
  : M (option GdkPixbuf * option GError) :=
  fun w =>
    let w1 := set_trace (trace w ++ [Egdk_pixbuf_new_from_file file]) w in
    match env_decode env file with
    | inl e => Some ((None, Some e), w1)
    | inr img =>
        let pb := fresh (dom (pixbufs w1)) in
        Some ((Some pb, None), set_pixbufs (<[pb := img]> (pixbufs w1)) w1)
    end.

(** *** cairo *)

Definition cairo_set_source_surface (cr : cairo_t) (s : option cairo_surface_t)
    (x y : gdouble) : M unit :=
  emit (Ecairo_set_source_surface cr s x y).

Definition cairo_paint_with_alpha (cr : cairo_t) (a : gdouble) : M unit :=
  emit (Ecairo_paint_with_alpha cr a).

Definition gdk_cairo_set_source_window (cr : cairo_t) (win : option GdkWindow)
    (x y : gdouble) : M unit :=
  emit (Egdk_cairo_set_source_window cr win x y).

Definition cairo_paint (cr : cairo_t) : M unit := emit (Ecairo_paint cr).

(** Drops the caller's reference.  The code never takes a second reference
    to a surface it owns, so this is where the surface goes. *)
Definition cairo_surface_destroy (s : cairo_surface_t) : M unit :=
  fun w =>
    Some (tt, set_trace (trace w ++ [Ecairo_surface_destroy s])
                (set_surfaces (delete s (surfaces w)) w)).

(** cairo's constructors never return [NULL]. *)
Definition cairo_xlib_surface_create (dpy : Display) (d : Drawable)
    (visual : Visual) (width height : gint) : M (option cairo_surface_t) :=
  fun w =>
    let s := fresh (dom (surfaces w)) in
    Some (Some s,
          set_trace
            (trace w ++ [Ecairo_xlib_surface_create s dpy d visual width height])
            (set_surfaces
               (<[s := XlibSurface dpy d visual width height]> (surfaces w)) w)).

Definition gdk_cairo_surface_create_from_pixbuf (pb : option GdkPixbuf)
    (scale : gint) (for_window : option GdkWindow) : M (option cairo_surface_t) :=
  fun w =>
    match pb with
    | Some p =>
        match pixbufs w !! p with
        | Some img =>
            let s := fresh (dom (surfaces w)) in
            Some (Some s,
                  set_trace
                    (trace w ++
                     [Egdk_cairo_surface_create_from_pixbuf s p scale for_window])
                    (set_surfaces
                       (<[s := PixbufSurface img scale for_window]> (surfaces w))
                       w))
        | None => None
        end
    | None => None
    end.

(** ** background.c *)

(** The [for] loop of [background_info_draw_callback] over the child list. *)
Fixpoint draw_children (cr : cairo_t) (l : list GtkWidget) : M unit :=
  match l with
  | [] => ret tt
  | child :: next =>
      visible <- gtk_widget_get_visible child ;;
      (if visible : bool then
         win <- gtk_widget_get_window (Some child) ;;
         gdk_cairo_set_source_window cr win 0%float 0%float ;;
         cairo_paint cr
       else ret tt) ;;
      draw_children cr next
  end.

Definition background_info_draw_callback (w : GtkWidget) (cr : cairo_t)
    (info : positive) : M gboolean :=
  b <- get_bg info ;;
  match b with
  | Some _ =>
      g_mutex_lock info ;;
      s <- get_bg info ;;
      cairo_set_source_surface cr s 0%float 0%float ;;
      a <- get_alpha info ;;
      cairo_paint_with_alpha cr a ;;
      g_mutex_unlock info
  | None => ret tt
  end ;;
  children <- gtk_container_get_children w ;;
  draw_children cr children ;;
  g_list_free children ;;
  ret TRUE.

Definition background_info_set_background_by_drawable (info : positive)
    (drawable : guint32) : M unit :=
  dpy <- gdk_x11_get_default_xdisplay ;;
  gdk_error_trap_push ;;
  geom <- XGetGeometry dpy drawable (0, 0) ;;
  let width := fst geom in
  let height := snd geom in
  err <- gdk_error_trap_pop ;;
  if negb (err =? 0) then
    g_warning ("set_background_by_drawable invalid drawable %d " +:+ nl)
      [ArgInt (gint_of drawable)]
  else
    g_mutex_lock info ;;
    b <- get_bg info ;;
    match b with
    | Some s => cairo_surface_destroy s ;; set_bg info None
    | None => ret tt
    end ;;
    v <- gdk_visual_get_system ;;
    xv <- gdk_x11_visual_get_xvisual v ;;
    s <- cairo_xlib_surface_create dpy drawable xv (gint_of width) (gint_of height) ;;
    set_bg info s ;;
    g_mutex_unlock info ;;
    c <- get_container info ;;
    win <- gtk_widget_get_window c ;;
    gdk_window_invalidate_rect win None FALSE.

Definition background_info_set_background_by_file (info : positive)
    (file : string) : M unit :=
  g_message "background_info_set_background_by_file:%s" [ArgStr file] ;;
  r <- gdk_pixbuf_new_from_file file ;;
  let pb := fst r in
  let error := snd r in
  match error with
  | Some e =>
      g_warning ("set_background_by_file failed: %s" +:+ nl)
        [ArgStr (g_error_message e)] ;;
      g_error_free e
  | None =>
      g_mutex_lock info ;;
      b <- get_bg info ;;
      match b with
      | Some s => cairo_surface_destroy s ;; set_bg info None
      | None => ret tt
      end ;;
      c <- get_container info ;;
      win <- gtk_widget_get_window c ;;
      s <- gdk_cairo_surface_create_from_pixbuf pb 1 win ;;
      set_bg info s ;;
      g_mutex_unlock info ;;
      g_object_unref pb ;;
      c' <- get_container info ;;
      win' <- gtk_widget_get_window c' ;;
      gdk_window_invalidate_rect win' None FALSE
  end.

Definition background_info_change_alpha (info : positive) (a : gdouble) : M unit :=
  set_alpha info a ;;
  c <- get_container info ;;
  win <- gtk_widget_get_window c ;;
  gdk_window_invalidate_rect win None FALSE.

Definition background_info_clear (info : positive) : M unit :=
  b <- get_bg info ;;
  match b with
  | Some s => cairo_surface_destroy s
  | None => ret tt
  end ;;
  g_mutex_clear info ;;
  g_free info.

Definition create_background_info (container child : GtkWidget) : M positive :=
  g_message "create_background_info" [] ;;
  info <- g_new0 ;;
  g_mutex_init info ;;
  set_alpha info (gdouble_of_int 1%uint63) ;;
  gtk_widget_realize child ;;
  cwin <- gtk_widget_get_window (Some child) ;;
  gdk_window_set_composited cwin TRUE ;;
  g_signal_connect container "draw" info ;;
  gtk_widget_realize container ;;
  win <- gtk_widget_get_window (Some container) ;;
  gdk_window_set_background_rgba win (mkRGBA 0%float 0%float 0%float 0%float) ;;
  ret info.

End Model.

(** ** Reading a trace *)

Definition is_warning (e : event) : bool :=
  match e with Eg_warning _ _ => true | _ => false end.

Definition is_invalidate (e : event) : bool :=
  match e with Egdk_window_invalidate_rect _ _ _ => true | _ => false end.

Definition is_paint_with_alpha (e : event) : bool :=
  match e with Ecairo_paint_with_alpha _ _ => true | _ => false end.

Definition is_paint (e : event) : bool :=
  match e with Ecairo_paint _ => true | _ => false end.

(** The calls that draw into the context [cr]. *)
Definition is_draw_on (cr : cairo_t) (e : event) : bool :=
  match e with
  | Ecairo_set_source_surface c _ _ _
  | Ecairo_paint_with_alpha c _
  | Egdk_cairo_set_source_window c _ _ _
  | Ecairo_paint c => Pos.eqb c cr
  | _ => false
  end.

(** The calls of the redraw that leave nothing behind: the lock and unlock
    of the instance's mutex, and the temporary child list. *)
Definition is_transient (info : positive) (w : GtkWidget) (e : event) : bool :=
  match e with
  | Eg_mutex_lock p | Eg_mutex_unlock p => Pos.eqb p info
  | Egtk_container_get_children c => Pos.eqb c w
  | Eg_list_free _ => true
  | _ => false
  end.

(** The surfaces a trace creates and the ones it releases, in order. *)
Definition created (e : event) : option cairo_surface_t :=
  match e with
  | Ecairo_xlib_surface_create s _ _ _ _ _ => Some s
  | Egdk_cairo_surface_create_from_pixbuf s _ _ _ => Some s
  | _ => None
  end.

Definition destroyed (e : event) : option cairo_surface_t :=
  match e with
  | Ecairo_surface_destroy s => Some s
  | _ => None
  end.

(** What [gtk_widget_get_window] answers in a world. *)
Definition widget_window (env : Env) (w : World) (wd : option GtkWidget)
  : option GdkWindow :=
  match wd with
  | Some c => if is_realized w c then Some (env_window env c) else None
  | None => None
  end.

Definition visible_children (env : Env) (w : GtkWidget) : list GtkWidget :=
  List.filter (env_visible env) (env_children env w).

(** *** What the redraw adds to the trace

    The loop over the children, the background, and the whole callback. *)
Definition child_events (env : Env) (cr : cairo_t) (w : World)
    (l : list GtkWidget) : list event :=
  flat_map
    (fun c => [Egdk_cairo_set_source_window cr (widget_window env w (Some c))
                 0%float 0%float;
               Ecairo_paint cr])
    (List.filter (env_visible env) l).

Definition bg_events (cr : cairo_t) (info : positive) (i : BackgroundInfo)
  : list event :=
  match bg i with
  | Some s => [Eg_mutex_lock info;
               Ecairo_set_source_surface cr (Some s) 0%float 0%float;
               Ecairo_paint_with_alpha cr (alpha i);
               Eg_mutex_unlock info]
  | None => []
  end.

Definition draw_events (env : Env) (cr : cairo_t) (w : World)
    (wdg : GtkWidget) (info : positive) (i : BackgroundInfo) : list event :=
  bg_events cr info i ++
  [Egtk_container_get_children wdg] ++
  child_events env cr w (env_children env wdg) ++
  [Eg_list_free (env_children env wdg)].

(** *** Releasing the previous surface

    What the release of the surface [b] that an instance holds leaves of the
    live surfaces, and what it adds to the trace. *)
Definition release (b : option cairo_surface_t) (m : gmap positive surface_obj)
  : gmap positive surface_obj :=
  match b with
  | Some s => delete s m
  | None => m
  end.

Definition release_events (info : positive) (b : option cairo_surface_t)
  : list event :=
  match b with
  | Some s => [Ecairo_surface_destroy s; Eset_bg info None]
  | None => []
  end.

Definition destroy_events (b : option cairo_surface_t) : list event :=
  match b with
  | Some s => [Ecairo_surface_destroy s]
  | None => []
  end.

(** Everything of a world but its trace. *)
Definition same_state (w w' : World) : Prop :=
  infos w' = infos w /\ surfaces w' = surfaces w /\ pixbufs w' = pixbufs w /\
  realized w' = realized w /\ traps w' = traps w.

(** *** What a trace paints

    cairo keeps a current source in the context; [cairo_paint] paints it
    over the whole clip at full opacity and [cairo_paint_with_alpha] with
    the given opacity.  A new context has opaque black as its source.
    [cairo_set_source_surface] with a [NULL] surface puts the context in its
    error state, in which nothing is painted any more;
    [gdk_cairo_set_source_window] with a [NULL] window returns at its guard
    and leaves the source as it was. *)

Inductive source :=
| SrcBlack
| SrcSurface (s : cairo_surface_t) (x y : gdouble)
| SrcWindow (win : GdkWindow) (x y : gdouble).

Record layer := mkLayer {
  layer_source : source;
  layer_opacity : gdouble
}.

Fixpoint render (cr : cairo_t) (src : source) (evs : list event) : list layer :=
  match evs with
  | [] => []
  | e :: rest =>
      match e with
      | Ecairo_set_source_surface c (Some s) x y =>
          render cr (if Pos.eqb c cr then SrcSurface s x y else src) rest
      | Ecairo_set_source_surface c None x y =>
          if Pos.eqb c cr then [] else render cr src rest
      | Egdk_cairo_set_source_window c (Some win) x y =>
          render cr (if Pos.eqb c cr then SrcWindow win x y else src) rest
      | Egdk_cairo_set_source_window c None x y => render cr src rest
      | Ecairo_paint c =>
          if Pos.eqb c cr then mkLayer src 1%float :: render cr src rest
          else render cr src rest
      | Ecairo_paint_with_alpha c a =>
          if Pos.eqb c cr then mkLayer src a :: render cr src rest
          else render cr src rest
      | _ => render cr src rest
      end
  end.

(** ** The scenario of the round trip *)

Definition round_trip (env : Env) (container child : GtkWidget) (file : string)
  : M unit :=
  (info <- create_background_info env container child ;;
   background_info_set_background_by_file env info file ;;
   background_info_clear info)%m.

Definition change_alpha_twice (env : Env) (info : positive) (a : gdouble) : M unit :=
  (background_info_change_alpha env info a ;;
   background_info_change_alpha env info a)%m.

(** ** A concrete desktop, for running the model *)

Module Demo.

Definition no_such_file : GError := mkGError 4 "No such file or directory".

Definition bg_png : image := mkImage 100 50 [].

(** Container 1 with the children 2, 3 and 4, of which 3 is hidden; drawable
    0x1600003 is a 1920x1080 window, no other drawable exists; [bg.png] is a
    100x50 image, no other file decodes. *)
Definition env : Env :=
  mkEnv (fun w => if Pos.eqb w 1 then [2; 3; 4]%positive else [])
        (fun w => negb (Pos.eqb w 3))
        (fun w => Pos.add w 100)
        1%positive 1%positive
        (fun d => if d =? 23068675 then Some (1920, 1080) else None)
        (fun f => if String.eqb f "bg.png" then inr bg_png else inl no_such_file).

Definition empty : World := mkWorld ∅ ∅ ∅ ∅ [] [].

Definition box : GtkWidget := 1%positive.
Definition overlay : GtkWidget := 2%positive.
Definition cr : cairo_t := 9%positive.
Definition info : positive := 7%positive.
Definition old_surface : cairo_surface_t := 5%positive.

(** The instance for container 1, showing surface 5 at half opacity. *)
Definition instance : BackgroundInfo :=
  mkBackgroundInfo (Some box) (Some old_surface) 0.5%float.

(** A world with that instance at address 7; the container and its visible
    children are realized. *)
Definition backed : World :=
  mkWorld (<[ info := instance ]> ∅)
          (<[ old_surface := XlibSurface 1%positive 23068675 1%positive 1920 1080 ]>
             ∅)
          ∅ {[ 1%positive; 2%positive; 4%positive ]} [] [].

End Demo.

(** ** The interface as a whole

    A caller's view: the six entry points as calls, and a run of several of
    them one after the other. *)

Inductive api_call :=
| Create (container child : GtkWidget)
| Redraw (wdg : GtkWidget) (cr : cairo_t) (info : positive)
| SetDrawable (info : positive) (drawable : guint32)
| SetFile (info : positive) (file : string)
| ChangeAlpha (info : positive) (a : gdouble)
| Clear (info : positive).

Definition run_call (env : Env) (c : api_call) : M unit :=
  match c with
  | Create container child =>
      (_ <- create_background_info env container child ;; ret tt)%m
  | Redraw wdg cr info =>
      (_ <- background_info_draw_callback env wdg cr info ;; ret tt)%m
  | SetDrawable info drawable =>
      background_info_set_background_by_drawable env info drawable
  | SetFile info file => background_info_set_background_by_file env info file
  | ChangeAlpha info a => background_info_change_alpha env info a
  | Clear info => background_info_clear info
  end.

Fixpoint run_calls (env : Env) (l : list api_call) : M unit :=
  match l with
  | [] => ret tt
  | c :: rest => (run_call env c ;; run_calls env rest)%m
  end.

(** The instance a call works on is allocated. *)
Definition call_ready (w : World) (c : api_call) : Prop :=
  match c with
  | Create _ _ => True
  | Redraw _ _ info | SetDrawable info _ | SetFile info _
  | ChangeAlpha info _ | Clear info => is_Some (infos w !! info)
  end.

(** *** Ownership of the surfaces

    Every surface an instance holds is live, no two instances hold the same
    surface, and every live surface is held by an instance. *)
Record owns_exactly (w : World) : Prop := mkOwns {
  held_live : forall p i s,
    infos w !! p = Some i -> bg i = Some s -> is_Some (surfaces w !! s);
  held_once : forall p q i j s,
    infos w !! p = Some i -> infos w !! q = Some j ->
    bg i = Some s -> bg j = Some s -> p = q;
  live_held : forall s,
    is_Some (surfaces w !! s) ->
    exists p i, infos w !! p = Some i /\ bg i = Some s
}.

(** *** The lock in a trace

    [lock_scan info inside outside held evs] follows the mutex of the
    instance [info] through [evs], starting held or not: a lock while held
    or an unlock while free stops the scan, and so does a call in [inside]
    made while the mutex is free or a call in [outside] made while it is
    held.  The result is the state of the mutex at the end. *)
Fixpoint lock_scan (info : positive) (inside outside : event -> bool)
    (held : bool) (evs : list event) : option bool :=
  match evs with
  | [] => Some held
  | e :: rest =>
      match e with
      | Eg_mutex_lock p =>
          if Pos.eqb p info then
            if held then None else lock_scan info inside outside true rest
          else lock_scan info inside outside held rest
      | Eg_mutex_unlock p =>
          if Pos.eqb p info then
            if held then lock_scan info inside outside false rest else None
          else lock_scan info inside outside held rest
      | _ =>
          if (inside e && negb held) || (outside e && held) then None
          else lock_scan info inside outside held rest
      end
  end.

Definition is_lock_call (e : event) : bool :=
  match e with
  | Eg_mutex_lock _ | Eg_mutex_unlock _ => true
  | _ => false
  end.

(** The calls and writes that change which surface an instance shows. *)
Definition is_surface_change (e : event) : bool :=
  match e with
  | Ecairo_surface_destroy _
  | Ecairo_xlib_surface_create _ _ _ _ _ _
  | Egdk_cairo_surface_create_from_pixbuf _ _ _ _
  | Eset_bg _ _ => true
  | _ => false
  end.

(** The calls of a setter that go to the outside: the X server, the image
    loader, the invalidation, the log. *)
Definition is_slow_call (e : event) : bool :=
  match e with
  | EXGetGeometry _ _
  | Egdk_pixbuf_new_from_file _
  | Eg_object_unref _
  | Egdk_window_invalidate_rect _ _ _
  | Eg_message _ _
  | Eg_warning _ _ => true
  | _ => false
  end.

Definition is_bg_paint (e : event) : bool :=
  match e with
  | Ecairo_set_source_surface _ _ _ _
  | Ecairo_paint_with_alpha _ _ => true
  | _ => false
  end.

Definition is_child_paint (e : event) : bool :=
  match e with
  | Egtk_container_get_children _
  | Egdk_cairo_set_source_window _ _ _ _
  | Ecairo_paint _
  | Eg_list_free _ => true
  | _ => false
  end.

(** The instance a call works on, if it works on one. *)
Definition call_target (c : api_call) : option positive :=
  match c with
  | Create _ _ => None
  | Redraw _ _ info | SetDrawable info _ | SetFile info _
  | ChangeAlpha info _ | Clear info => Some info
  end.

(** One of the two setters of the surface, on the instance [info]. *)
Definition is_setter_on (info : positive) (c : api_call) : Prop :=
  match c with
  | SetDrawable p _ | SetFile p _ => p = info
  | _ => False
  end.

(** The outside lets the setter through: the drawable has a geometry, the
    file decodes. *)
Definition setter_succeeds (env : Env) (c : api_call) : Prop :=
  match c with
  | SetDrawable _ d => is_Some (env_geometry env d)
  | SetFile _ f => exists img, env_decode env f = inr img
  | _ => False
  end.

(** A session on the concrete desktop: create, both setters, a change of
    opacity, a redraw, both setters failing, destroy. *)
Definition demo_session (p : positive) : list api_call :=
  [Create Demo.box Demo.overlay;
   SetFile p "bg.png";
   SetDrawable p 23068675;
   ChangeAlpha p 0.25%float;
   Redraw Demo.box Demo.cr p;
   SetDrawable p 4294967295;
   SetFile p "missing.png";
   Clear p].

(** * Proofs *)

Ltac unfold_ops :=
  unfold get_bg, get_alpha, get_container, set_bg, set_alpha, g_message,
    g_warning, g_mutex_init, g_mutex_lock, g_mutex_unlock, g_mutex_clear,
    g_list_free, g_error_free, g_signal_connect, gtk_container_get_children,
    gtk_widget_get_visible, gdk_window_invalidate_rect,
    gdk_window_set_composited, gdk_window_set_background_rgba,
    gdk_x11_get_default_xdisplay, gdk_visual_get_system,
    gdk_x11_visual_get_xvisual, gdk_error_trap_push, gdk_error_trap_pop,
    XGetGeometry, cairo_set_source_surface, cairo_paint_with_alpha,
    gdk_cairo_set_source_window, cairo_paint, cairo_surface_destroy,
    cairo_xlib_surface_create, gdk_pixbuf_new_from_file,
    gdk_cairo_surface_create_from_pixbuf, g_object_unref, g_new0, g_free,
    gtk_widget_realize, gtk_widget_get_window in *;
  unfold load, store, emit, bind, ret, widget_window, is_realized in *.

(** Runs the state through: each load of the instance is answered by the
    hypothesis [H] or by the store before it. *)
Ltac run_with H :=
  simpl;
  repeat (first [ rewrite H
                | rewrite lookup_insert_eq
                | rewrite insert_insert_eq
                | match goal with E : _ = _ |- _ => rewrite E end ];
          simpl).

(** ** Arithmetic and map facts *)

Lemma gint_of_small (z : Z) : 0 <= z <= INT_MAX -> gint_of z = z.
Proof.
  unfold gint_of, INT_MAX. intros Hz.
  rewrite Z.mod_small by lia. lia.
Qed.

(** Past [INT_MAX] the conversion wraps. *)
Lemma gint_of_wraps : gint_of (2 ^ 31) = - 2 ^ 31.
Proof. reflexivity. Qed.

Lemma fresh_lookup_None {A} (m : gmap positive A) : m !! fresh (dom m) = None.
Proof. apply not_elem_of_dom, is_fresh. Qed.

(** ** The redraw, step by step *)

Section Redraw.

Variable env : Env.
Variable cr : cairo_t.

Lemma draw_children_run (l : list GtkWidget) :
  forall w,
    draw_children env cr l w
    = Some (tt, set_trace (trace w ++ child_events env cr w l) w).
Proof.
  induction l as [|c l IH]; intros w.
  - unfold child_events. simpl. rewrite app_nil_r. destruct w; reflexivity.
  - simpl. unfold_ops. unfold child_events. simpl.
    destruct (env_visible env c); simpl.
    + destruct (bool_decide (c ∈ realized w)) eqn:Hr; rewrite IH; simpl;
        unfold child_events, widget_window, is_realized; simpl; rewrite ?Hr;
        rewrite <- ?app_assoc; reflexivity.
    + rewrite IH. reflexivity.
Qed.

Lemma draw_callback_run (w : World) (wdg : GtkWidget) (info : positive)
    (i : BackgroundInfo) :
  infos w !! info = Some i ->
  background_info_draw_callback env wdg cr info w
  = Some (TRUE, set_trace (trace w ++ draw_events env cr w wdg info i) w).
Proof.
  intros Hi. unfold background_info_draw_callback, draw_events, bg_events.
  unfold_ops. simpl. rewrite Hi. simpl.
  destruct (bg i) as [s|] eqn:Hb; simpl.
  - rewrite Hi. simpl. rewrite Hi. simpl. rewrite draw_children_run. simpl.
    rewrite Hb. unfold child_events, widget_window, is_realized. simpl.
    rewrite <- ?app_assoc. reflexivity.
  - rewrite draw_children_run. simpl.
    unfold child_events, widget_window, is_realized. simpl.
    rewrite <- ?app_assoc. reflexivity.
Qed.

Lemma child_events_draw (w : World) (info : positive) (wdg : GtkWidget)
    (l : list GtkWidget) :
  forallb (fun e => is_draw_on cr e || is_transient info wdg e)
    (child_events env cr w l)
  = true.
Proof.
  unfold child_events. induction (List.filter (env_visible env) l) as [|c l' IH].
  - reflexivity.
  - simpl. rewrite Pos.eqb_refl. simpl. exact IH.
Qed.

Lemma child_events_plain (w : World) (l : list GtkWidget) (tail : list event) :
  existsb is_paint_with_alpha tail = false ->
  List.filter is_paint tail = [] ->
  existsb is_paint_with_alpha (child_events env cr w l ++ tail) = false /\
  length (List.filter is_paint (child_events env cr w l ++ tail))
  = length (List.filter (env_visible env) l).
Proof.
  intros Halpha Hpaint. unfold child_events.
  induction (List.filter (env_visible env) l) as [|c l' [IHa IHp]]; simpl.
  - rewrite Hpaint. split; [exact Halpha | reflexivity].
  - split; [exact IHa | f_equal; exact IHp].
Qed.

Lemma render_child_events (w : World) (l : list GtkWidget) (tail : list event) :
  forallb (is_realized w) (List.filter (env_visible env) l) = true ->
  (forall src, render cr src tail = []) ->
  forall src,
    render cr src (child_events env cr w l ++ tail)
    = map (fun c => mkLayer (SrcWindow (env_window env c) 0%float 0%float) 1%float)
        (List.filter (env_visible env) l).
Proof.
  intros Hreal Htail. unfold child_events.
  induction (List.filter (env_visible env) l) as [|c l' IH]; intros src.
  - simpl. apply Htail.
  - simpl in Hreal. apply andb_prop in Hreal as [Hc Hl'].
    simpl. rewrite Hc, Pos.eqb_refl. f_equal. apply IH. exact Hl'.
Qed.

End Redraw.

(** ** The setters, step by step *)

Section Setters.

Variable env : Env.

Lemma set_by_drawable_fail_run (w : World) (info : positive) (drawable : guint32) :
  env_geometry env drawable = None ->
  background_info_set_background_by_drawable env info drawable w
  = Some (tt, set_trace
                (trace w ++
                 [EXGetGeometry (env_display env) drawable;
                  Eg_warning ("set_background_by_drawable invalid drawable %d " +:+ nl)
                    [ArgInt (gint_of drawable)]])
                w).
Proof.
  intros Hfail. unfold background_info_set_background_by_drawable.
  unfold_ops. simpl. rewrite Hfail. simpl.
  rewrite <- ?app_assoc. destruct w; reflexivity.
Qed.

Lemma set_by_drawable_ok_run (w : World) (info : positive) (i : BackgroundInfo)
    (drawable : guint32) (wd ht : guint) :
  infos w !! info = Some i ->
  env_geometry env drawable = Some (wd, ht) ->
  let live := release (bg i) (surfaces w) in
  let s := fresh (dom live) in
  background_info_set_background_by_drawable env info drawable w
  = Some (tt,
          mkWorld
            (<[info := mkBackgroundInfo (container i) (Some s) (alpha i)]> (infos w))
            (<[s := XlibSurface (env_display env) drawable (env_visual env)
                      (gint_of wd) (gint_of ht)]> live)
            (pixbufs w) (realized w) (traps w)
            (trace w ++
             [EXGetGeometry (env_display env) drawable; Eg_mutex_lock info] ++
             release_events info (bg i) ++
             [Ecairo_xlib_surface_create s (env_display env) drawable
                (env_visual env) (gint_of wd) (gint_of ht);
              Eset_bg info (Some s);
              Eg_mutex_unlock info;
              Egdk_window_invalidate_rect (widget_window env w (container i))
                None FALSE])).
Proof.
  intros Hi Hok. unfold background_info_set_background_by_drawable.
  unfold_ops. simpl. rewrite Hok.
  run_with Hi.
  destruct (bg i) as [s0|] eqn:Hb; run_with Hi;
    (destruct (container i) as [c|]; simpl;
     [destruct (bool_decide (c ∈ realized w)) eqn:Hr|]; simpl;
     rewrite <- ?app_assoc; reflexivity).
Qed.

Lemma set_by_file_fail_run (w : World) (info : positive) (file : string)
    (e : GError) :
  env_decode env file = inl e ->
  background_info_set_background_by_file env info file w
  = Some (tt, set_trace
                (trace w ++
                 [Eg_message "background_info_set_background_by_file:%s" [ArgStr file];
                  Egdk_pixbuf_new_from_file file;
                  Eg_warning ("set_background_by_file failed: %s" +:+ nl)
                    [ArgStr (g_error_message e)];
                  Eg_error_free e])
                w).
Proof.
  intros Hfail. unfold background_info_set_background_by_file.
  unfold_ops. simpl. rewrite Hfail. simpl.
  rewrite <- ?app_assoc. destruct w; reflexivity.
Qed.

Lemma set_by_file_ok_run (w : World) (info : positive) (i : BackgroundInfo)
    (file : string) (img : image) :
  infos w !! info = Some i ->
  env_decode env file = inr img ->
  let live := release (bg i) (surfaces w) in
  let s := fresh (dom live) in
  let pb := fresh (dom (pixbufs w)) in
  let win := widget_window env w (container i) in
  background_info_set_background_by_file env info file w
  = Some (tt,
          mkWorld
            (<[info := mkBackgroundInfo (container i) (Some s) (alpha i)]> (infos w))
            (<[s := PixbufSurface img 1 win]> live)
            (pixbufs w) (realized w) (traps w)
            (trace w ++
             [Eg_message "background_info_set_background_by_file:%s" [ArgStr file];
              Egdk_pixbuf_new_from_file file;
              Eg_mutex_lock info] ++
             release_events info (bg i) ++
             [Egdk_cairo_surface_create_from_pixbuf s pb 1 win;
              Eset_bg info (Some s);
              Eg_mutex_unlock info;
              Eg_object_unref pb;
              Egdk_window_invalidate_rect win None FALSE])).
Proof.
  intros Hi Hok. unfold background_info_set_background_by_file.
  unfold_ops. simpl. rewrite Hok.
  run_with Hi.
  destruct (bg i) as [s0|] eqn:Hb;
    (destruct (container i) as [c|] eqn:Hc;
     [destruct (bool_decide (c ∈ realized w)) eqn:Hr|]);
    run_with Hi;
    rewrite delete_insert_id by apply fresh_lookup_None;
    rewrite <- ?app_assoc; reflexivity.
Qed.

Lemma change_alpha_run (w : World) (info : positive) (i : BackgroundInfo)
    (a : gdouble) :
  infos w !! info = Some i ->
  background_info_change_alpha env info a w
  = Some (tt,
          mkWorld
            (<[info := mkBackgroundInfo (container i) (bg i) a]> (infos w))
            (surfaces w) (pixbufs w) (realized w) (traps w)
            (trace w ++
             [Eset_alpha info a;
              Egdk_window_invalidate_rect (widget_window env w (container i))
                None FALSE])).
Proof.
  intros Hi. unfold background_info_change_alpha.
  unfold_ops. run_with Hi.
  destruct (container i) as [c|] eqn:Hc;
    [destruct (bool_decide (c ∈ realized w)) eqn:Hr|];
    run_with Hi; rewrite <- ?app_assoc; reflexivity.
Qed.

Lemma clear_run (w : World) (info : positive) (i : BackgroundInfo) :
  infos w !! info = Some i ->
  background_info_clear info w
  = Some (tt,
          mkWorld (delete info (infos w)) (release (bg i) (surfaces w))
            (pixbufs w) (realized w) (traps w)
            (trace w ++ destroy_events (bg i) ++
             [Eg_mutex_clear info; Eg_free info])).
Proof.
  intros Hi. unfold background_info_clear.
  unfold_ops. run_with Hi.
  destruct (bg i) as [s|]; run_with Hi; rewrite <- ?app_assoc; reflexivity.
Qed.

Lemma gdouble_of_int_one : gdouble_of_int 1%uint63 = 1%float.
Proof. reflexivity. Qed.

Lemma create_run (w : World) (container child : GtkWidget) :
  let info := fresh (dom (infos w)) in
  create_background_info env container child w
  = Some (info,
          mkWorld
            (<[info := mkBackgroundInfo None None 1%float]> (infos w))
            (surfaces w) (pixbufs w)
            (realized w ∪ {[ child ]} ∪ {[ container ]}) (traps w)
            (trace w ++
             [Eg_message "create_background_info" [];
              Eg_new0 info;
              Eg_mutex_init info;
              Eset_alpha info 1%float;
              Egtk_widget_realize child;
              Egdk_window_set_composited (Some (env_window env child)) TRUE;
              Eg_signal_connect container "draw" info;
              Egtk_widget_realize container;
              Egdk_window_set_background_rgba (Some (env_window env container))
                (mkRGBA 0%float 0%float 0%float 0%float)])).
Proof.
  unfold create_background_info. rewrite gdouble_of_int_one.
  unfold_ops. run_with I.
  rewrite (bool_decide_eq_true_2 (child ∈ realized w ∪ {[ child ]}))
    by set_solver.
  simpl.
  rewrite (bool_decide_eq_true_2
             (container ∈ realized w ∪ {[ child ]} ∪ {[ container ]}))
    by set_solver.
  simpl. rewrite <- ?app_assoc. reflexivity.
Qed.

End Setters.

(** * The claims *)

(** ** setBackgroundFromDrawable *)

(** C1.  When the geometry query for the drawable fails,
    [background_info_set_background_by_drawable] returns having logged a
    warning and nothing else: every instance (its [bg] and [alpha] among
    the rest), every surface and the rest of the state are as before, and no
    [gdk_window_invalidate_rect] is issued.  The calls it adds to the trace
    are the geometry request and the warning. *)
Theorem set_background_by_drawable_invalid (env : Env) (w : World)
    (info : positive) (drawable : guint32) :
  env_geometry env drawable = None ->
  exists w' evs,
    background_info_set_background_by_drawable env info drawable w = Some (tt, w') /\
    same_state w w' /\
    infos w' !! info = infos w !! info /\
    trace w' = trace w ++ evs /\
    evs = [EXGetGeometry (env_display env) drawable;
           Eg_warning ("set_background_by_drawable invalid drawable %d " +:+ nl)
             [ArgInt (gint_of drawable)]] /\
    existsb is_warning evs = true /\
    existsb is_invalidate evs = false.
Proof.
  intros Hfail. eexists; eexists.
  split; [apply set_by_drawable_fail_run; exact Hfail|].
  split; [repeat split|].
  repeat split.
Qed.

Lemma set_background_by_drawable_invalid_witness :
  env_geometry Demo.env 4294967295 = None /\
  exists w' evs,
    background_info_set_background_by_drawable Demo.env Demo.info 4294967295
      Demo.backed
    = Some (tt, w') /\
    same_state Demo.backed w' /\
    infos w' !! Demo.info = infos Demo.backed !! Demo.info /\
    trace w' = trace Demo.backed ++ evs /\
    evs = [EXGetGeometry (env_display Demo.env) 4294967295;
           Eg_warning ("set_background_by_drawable invalid drawable %d " +:+ nl)
             [ArgInt (gint_of 4294967295)]] /\
    existsb is_warning evs = true /\
    existsb is_invalidate evs = false.
Proof.
  split; [reflexivity|].
  exact (set_background_by_drawable_invalid Demo.env Demo.backed Demo.info 4294967295
           eq_refl).
Defined.

(** The success path on an arbitrary allocated instance.  When the geometry
    query answers a width and a height (X sizes, which fit an [int]),
    [background_info_set_background_by_drawable]
    takes the lock, releases the surface the instance held, if any, creates
    an Xlib surface on that drawable with exactly that width and height,
    stores it in [bg], unlocks, and last of all asks for the invalidation of
    the window that [gtk_widget_get_window] answers for the instance's
    [container] field (no rectangle).  The other fields and the other
    instances are untouched. *)
Theorem set_background_by_drawable_valid (env : Env) (w : World)
    (info : positive) (i : BackgroundInfo) (drawable : guint32) (wd ht : guint) :
  infos w !! info = Some i ->
  env_geometry env drawable = Some (wd, ht) ->
  0 <= wd <= INT_MAX ->
  0 <= ht <= INT_MAX ->
  exists w' s,
    background_info_set_background_by_drawable env info drawable w = Some (tt, w') /\
    infos w'
    = <[info := mkBackgroundInfo (container i) (Some s) (alpha i)]> (infos w) /\
    surfaces w'
    = <[s := XlibSurface (env_display env) drawable (env_visual env) wd ht]>
        (release (bg i) (surfaces w)) /\
    surfaces w' !! s
    = Some (XlibSurface (env_display env) drawable (env_visual env) wd ht) /\
    trace w'
    = trace w ++
      [EXGetGeometry (env_display env) drawable; Eg_mutex_lock info] ++
      release_events info (bg i) ++
      [Ecairo_xlib_surface_create s (env_display env) drawable (env_visual env) wd ht;
       Eset_bg info (Some s);
       Eg_mutex_unlock info;
       Egdk_window_invalidate_rect (widget_window env w (container i)) None FALSE].
Proof.
  intros Hi Hok Hwd Hht.
  pose proof (set_by_drawable_ok_run env w info i drawable wd ht Hi Hok) as Hrun.
  simpl in Hrun. rewrite (gint_of_small wd Hwd), (gint_of_small ht Hht) in Hrun.
  eexists; eexists. split; [exact Hrun|]. simpl.
  repeat split. apply lookup_insert_eq.
Qed.

Lemma set_background_by_drawable_valid_witness :
  infos Demo.backed !! Demo.info = Some Demo.instance /\
  env_geometry Demo.env 23068675 = Some (1920, 1080) /\
  exists w' s,
    background_info_set_background_by_drawable Demo.env Demo.info 23068675
      Demo.backed
    = Some (tt, w') /\
    infos w' !! Demo.info
    = Some (mkBackgroundInfo (Some Demo.box) (Some s) 0.5%float) /\
    surfaces w' !! s
    = Some (XlibSurface 1%positive 23068675 1%positive 1920 1080) /\
    existsb is_invalidate (trace w') = true.
Proof.
  split; [reflexivity|]. split; [reflexivity|].
  assert (Hwd : 0 <= 1920 <= INT_MAX) by (unfold INT_MAX; lia).
  assert (Hht : 0 <= 1080 <= INT_MAX) by (unfold INT_MAX; lia).
  destruct (set_background_by_drawable_valid Demo.env Demo.backed Demo.info
              Demo.instance 23068675 1920 1080 eq_refl eq_refl Hwd Hht)
    as (w' & s & Hrun & Hinfos & Hsurf & Hs & Htrace).
  exists w', s. split; [exact Hrun|].
  split; [rewrite Hinfos; apply lookup_insert_eq|].
  split; [exact Hs|].
  rewrite Htrace. reflexivity.
Defined.

(** C3.  On an instance as [create_background_info] returns it, the setter
    does not ask for the invalidation of the container's window.  create
    realizes the container, which therefore has a window, but never stores
    the container in the instance: [container] is still the [NULL] of
    [g_new0].  [background_info_set_background_by_drawable] on a drawable
    with a geometry then installs the new surface and issues its one
    [gdk_window_invalidate_rect] for the [NULL] window. *)
Theorem create_then_set_by_drawable_invalidates_null (env : Env) (w : World)
    (box child : GtkWidget) (drawable : guint32) (wd ht : guint) :
  env_geometry env drawable = Some (wd, ht) ->
  exists info w1 w2 s evs,
    create_background_info env box child w = Some (info, w1) /\
    widget_window env w1 (Some box) = Some (env_window env box) /\
    infos w1 !! info = Some (mkBackgroundInfo None None 1%float) /\
    background_info_set_background_by_drawable env info drawable w1
    = Some (tt, w2) /\
    infos w2 !! info = Some (mkBackgroundInfo None (Some s) 1%float) /\
    trace w2 = trace w1 ++ evs /\
    List.filter is_invalidate evs = [Egdk_window_invalidate_rect None None FALSE].
Proof.
  intros Hg. eexists; eexists; eexists; eexists; eexists.
  split; [apply create_run|].
  split.
  { unfold widget_window, is_realized. simpl.
    rewrite bool_decide_eq_true_2 by set_solver. reflexivity. }
  split; [simpl; apply lookup_insert_eq|].
  split; [erewrite set_by_drawable_ok_run;
          [reflexivity | simpl; apply lookup_insert_eq | exact Hg]|].
  simpl. split; [apply lookup_insert_eq|].
  split; reflexivity.
Qed.

Lemma create_then_set_by_drawable_invalidates_null_witness :
  env_geometry Demo.env 23068675 = Some (1920, 1080) /\
  exists info w1 w2 evs,
    create_background_info Demo.env Demo.box Demo.overlay Demo.empty
    = Some (info, w1) /\
    widget_window Demo.env w1 (Some Demo.box) = Some 101%positive /\
    background_info_set_background_by_drawable Demo.env info 23068675 w1
    = Some (tt, w2) /\
    trace w2 = trace w1 ++ evs /\
    List.filter is_invalidate evs = [Egdk_window_invalidate_rect None None FALSE].
Proof.
  split; [reflexivity|].
  destruct (create_then_set_by_drawable_invalidates_null Demo.env Demo.empty
              Demo.box Demo.overlay 23068675 1920 1080 eq_refl)
    as (info & w1 & w2 & s & evs & Hc & Hwin & _ & Hset & _ & Htrace & Hinv).
  exists info, w1, w2, evs. repeat split; assumption.
Defined.

(** ** setBackgroundFromFile *)

(** C4.  When the image loader fails on the path with an error [e],
    [background_info_set_background_by_file] logs a warning whose argument
    is the message of [e], frees the error and returns: every instance,
    every surface and the rest of the state are as before, and no
    [gdk_window_invalidate_rect] is issued.  The function is [void]: what it
    returns is the unit value, as on success. *)
Theorem set_background_by_file_undecodable (env : Env) (w : World)
    (info : positive) (file : string) (e : GError) :
  env_decode env file = inl e ->
  exists w' evs,
    background_info_set_background_by_file env info file w = Some (tt, w') /\
    same_state w w' /\
    infos w' !! info = infos w !! info /\
    trace w' = trace w ++ evs /\
    evs = [Eg_message "background_info_set_background_by_file:%s" [ArgStr file];
           Egdk_pixbuf_new_from_file file;
           Eg_warning ("set_background_by_file failed: %s" +:+ nl)
             [ArgStr (g_error_message e)];
           Eg_error_free e] /\
    existsb is_warning evs = true /\
    existsb is_invalidate evs = false.
Proof.
  intros Hfail. eexists; eexists.
  split; [apply (set_by_file_fail_run env w info file e Hfail)|].
  split; [repeat split|].
  repeat split.
Qed.

Lemma set_background_by_file_undecodable_witness :
  env_decode Demo.env "missing.png" = inl Demo.no_such_file /\
  exists w' evs,
    background_info_set_background_by_file Demo.env Demo.info "missing.png" Demo.backed
    = Some (tt, w') /\
    same_state Demo.backed w' /\
    infos w' !! Demo.info = infos Demo.backed !! Demo.info /\
    trace w' = trace Demo.backed ++ evs /\
    evs = [Eg_message "background_info_set_background_by_file:%s"
             [ArgStr "missing.png"];
           Egdk_pixbuf_new_from_file "missing.png";
           Eg_warning ("set_background_by_file failed: %s" +:+ nl)
             [ArgStr (g_error_message Demo.no_such_file)];
           Eg_error_free Demo.no_such_file] /\
    existsb is_warning evs = true /\
    existsb is_invalidate evs = false.
Proof.
  split; [reflexivity|].
  exact (set_background_by_file_undecodable Demo.env Demo.backed Demo.info
           "missing.png" Demo.no_such_file eq_refl).
Defined.

(** The success path on an arbitrary allocated instance.  When the image
    loader decodes the file, [background_info_set_background_by_file]
    creates exactly one surface and
    stores it in [bg], which is therefore not [NULL] afterwards.  In order:
    the lock is taken, the surface the instance held, if any, is released,
    the new surface is created from the pixbuf and assigned, the lock is
    dropped, the pixbuf is unreferenced (none of the pixbufs of this call
    stays live), and the invalidation is asked for the window that
    [gtk_widget_get_window] answers for the instance's [container] field. *)
Theorem set_background_by_file_decodable (env : Env) (w : World)
    (info : positive) (i : BackgroundInfo) (file : string) (img : image) :
  infos w !! info = Some i ->
  env_decode env file = inr img ->
  exists w' s pb evs,
    background_info_set_background_by_file env info file w = Some (tt, w') /\
    infos w'
    = <[info := mkBackgroundInfo (container i) (Some s) (alpha i)]> (infos w) /\
    (exists i', infos w' !! info = Some i' /\ bg i' = Some s) /\
    surfaces w'
    = <[s := PixbufSurface img 1 (widget_window env w (container i))]>
        (release (bg i) (surfaces w)) /\
    pixbufs w' = pixbufs w /\
    trace w' = trace w ++ evs /\
    evs = [Eg_message "background_info_set_background_by_file:%s" [ArgStr file];
           Egdk_pixbuf_new_from_file file;
           Eg_mutex_lock info] ++
          release_events info (bg i) ++
          [Egdk_cairo_surface_create_from_pixbuf s pb 1
             (widget_window env w (container i));
           Eset_bg info (Some s);
           Eg_mutex_unlock info;
           Eg_object_unref pb;
           Egdk_window_invalidate_rect (widget_window env w (container i))
             None FALSE] /\
    omap created evs = [s] /\
    omap destroyed evs = option_list (bg i).
Proof.
  intros Hi Hok.
  pose proof (set_by_file_ok_run env w info i file img Hi Hok) as Hrun.
  simpl in Hrun.
  eexists; eexists; eexists; eexists. split; [exact Hrun|]. simpl.
  split; [reflexivity|].
  split; [eexists; split; [apply lookup_insert_eq|reflexivity]|].
  repeat (split; [reflexivity|]).
  destruct (bg i); split; reflexivity.
Qed.

Lemma set_background_by_file_decodable_witness :
  env_decode Demo.env "bg.png" = inr Demo.bg_png /\
  exists w' s,
    background_info_set_background_by_file Demo.env Demo.info "bg.png" Demo.backed
    = Some (tt, w') /\
    infos w' !! Demo.info
    = Some (mkBackgroundInfo (Some Demo.box) (Some s) 0.5%float) /\
    omap destroyed (trace w') = [Demo.old_surface] /\
    omap created (trace w') = [s].
Proof.
  split; [reflexivity|].
  destruct (set_background_by_file_decodable Demo.env Demo.backed Demo.info
              Demo.instance
              "bg.png" Demo.bg_png eq_refl eq_refl)
    as (w' & s & pb & evs & Hrun & Hinfos & _ & _ & _ & Htrace & _ & Hc & Hd).
  exists w', s. split; [exact Hrun|].
  split; [rewrite Hinfos; apply lookup_insert_eq|].
  rewrite Htrace. simpl. split; [exact Hd | exact Hc].
Defined.

(** C5.  On an instance as [create_background_info] returns it, the file
    setter replaces the surface but does not invalidate the container's
    window.  The container has a window after create, yet [container] is
    still [NULL] in the instance, so on a file that decodes
    [background_info_set_background_by_file] creates the surface for the
    [NULL] window, stores it in [bg], drops the pixbuf, and issues its one
    [gdk_window_invalidate_rect] for the [NULL] window. *)
Theorem create_then_set_by_file_invalidates_null (env : Env) (w : World)
    (box child : GtkWidget) (file : string) (img : image) :
  env_decode env file = inr img ->
  exists info w1 w2 s evs,
    create_background_info env box child w = Some (info, w1) /\
    widget_window env w1 (Some box) = Some (env_window env box) /\
    infos w1 !! info = Some (mkBackgroundInfo None None 1%float) /\
    background_info_set_background_by_file env info file w1 = Some (tt, w2) /\
    infos w2 !! info = Some (mkBackgroundInfo None (Some s) 1%float) /\
    surfaces w2 !! s = Some (PixbufSurface img 1 None) /\
    pixbufs w2 = pixbufs w /\
    trace w2 = trace w1 ++ evs /\
    omap created evs = [s] /\
    omap destroyed evs = [] /\
    List.filter is_invalidate evs = [Egdk_window_invalidate_rect None None FALSE].
Proof.
  intros Hd. eexists; eexists; eexists; eexists; eexists.
  split; [apply create_run|].
  split.
  { unfold widget_window, is_realized. simpl.
    rewrite bool_decide_eq_true_2 by set_solver. reflexivity. }
  split; [simpl; apply lookup_insert_eq|].
  split; [erewrite set_by_file_ok_run;
          [reflexivity | simpl; apply lookup_insert_eq | exact Hd]|].
  simpl. split; [apply lookup_insert_eq|].
  split; [apply lookup_insert_eq|].
  repeat split.
Qed.

Lemma create_then_set_by_file_invalidates_null_witness :
  env_decode Demo.env "bg.png" = inr Demo.bg_png /\
  exists info w1 w2 evs,
    create_background_info Demo.env Demo.box Demo.overlay Demo.empty
    = Some (info, w1) /\
    widget_window Demo.env w1 (Some Demo.box) = Some 101%positive /\
    background_info_set_background_by_file Demo.env info "bg.png" w1
    = Some (tt, w2) /\
    trace w2 = trace w1 ++ evs /\
    List.filter is_invalidate evs = [Egdk_window_invalidate_rect None None FALSE].
Proof.
  split; [reflexivity|].
  destruct (create_then_set_by_file_invalidates_null Demo.env Demo.empty
              Demo.box Demo.overlay "bg.png" Demo.bg_png eq_refl)
    as (info & w1 & w2 & s & evs & Hc & Hwin & _ & Hset & _ & _ & _ & Htrace
        & _ & _ & Hinv).
  exists info, w1, w2, evs. repeat split; assumption.
Defined.

(** ** create and destroy *)

(** C7.  [create_background_info] always returns: the address it returns
    was not allocated before, and the instance at it afterwards has [alpha]
    1 and [bg] [NULL] ([container] is [NULL] too: the function never assigns
    it).  The instances that existed keep their contents. *)
Theorem create_background_info_fresh (env : Env) (w : World)
    (container child : GtkWidget) :
  exists info w',
    create_background_info env container child w = Some (info, w') /\
    infos w !! info = None /\
    infos w' !! info = Some (mkBackgroundInfo None None 1%float) /\
    (forall p, p <> info -> infos w' !! p = infos w !! p) /\
    surfaces w' = surfaces w.
Proof.
  eexists; eexists. split; [apply create_run|]. simpl.
  split; [apply fresh_lookup_None|].
  split; [apply lookup_insert_eq|].
  split; [|reflexivity].
  intros p Hp. apply lookup_insert_ne. congruence.
Qed.

(** C6.  create, then setBackgroundFromFile on a decodable file, then
    destroy: the run completes, it creates one surface [s], which was not
    live before, and releases that same surface once and nothing else; at
    the end the live surfaces, the live pixbufs and the instances are those
    of the start. *)
Theorem round_trip_releases_one_surface (env : Env) (w : World)
    (container child : GtkWidget) (file : string) (img : image) :
  env_decode env file = inr img ->
  exists w' evs s,
    round_trip env container child file w = Some (tt, w') /\
    trace w' = trace w ++ evs /\
    omap created evs = [s] /\
    omap destroyed evs = [s] /\
    surfaces w !! s = None /\
    surfaces w' = surfaces w /\
    pixbufs w' = pixbufs w /\
    infos w' = infos w.
Proof.
  intros Hok. unfold round_trip, bind.
  rewrite create_run.
  erewrite set_by_file_ok_run; [|apply lookup_insert_eq|exact Hok].
  erewrite clear_run; [|apply lookup_insert_eq].
  simpl. eexists; eexists; eexists.
  split; [reflexivity|]. simpl.
  split; [rewrite <- ?app_assoc; simpl; reflexivity|].
  split; [reflexivity|].
  split; [reflexivity|].
  split; [apply fresh_lookup_None|].
  split; [apply delete_insert_id, fresh_lookup_None|].
  split; [reflexivity|].
  rewrite insert_insert_eq. apply delete_insert_id, fresh_lookup_None.
Qed.

Lemma round_trip_releases_one_surface_witness :
  env_decode Demo.env "bg.png" = inr Demo.bg_png /\
  exists w' evs s,
    round_trip Demo.env Demo.box Demo.overlay "bg.png" Demo.empty = Some (tt, w') /\
    trace w' = trace Demo.empty ++ evs /\
    omap created evs = [s] /\
    omap destroyed evs = [s] /\
    surfaces Demo.empty !! s = None /\
    surfaces w' = surfaces Demo.empty /\
    pixbufs w' = pixbufs Demo.empty /\
    infos w' = infos Demo.empty.
Proof.
  split; [reflexivity|].
  exact (round_trip_releases_one_surface Demo.env Demo.empty Demo.box Demo.overlay
           "bg.png"
           Demo.bg_png eq_refl).
Defined.

(** ** The redraw *)

(** C2.  A redraw on an existing instance returns [TRUE] whether or not a
    surface is set.  If [bg] is not [NULL] it takes the lock, makes the
    surface the source at (0,0), paints it with opacity [alpha] and drops
    the lock.  Then it fetches the child list of the container and, for each
    child that is visible, in list order and skipping the others, makes the
    child's window the source at (0,0) and paints it; last it frees the
    list. *)
Theorem draw_callback_paints (env : Env) (w : World) (wdg : GtkWidget)
    (cr : cairo_t) (info : positive) (i : BackgroundInfo) :
  infos w !! info = Some i ->
  exists w',
    background_info_draw_callback env wdg cr info w = Some (TRUE, w') /\
    trace w'
    = trace w ++
      match bg i with
      | Some s => [Eg_mutex_lock info;
                   Ecairo_set_source_surface cr (Some s) 0%float 0%float;
                   Ecairo_paint_with_alpha cr (alpha i);
                   Eg_mutex_unlock info]
      | None => []
      end ++
      [Egtk_container_get_children wdg] ++
      flat_map
        (fun c => [Egdk_cairo_set_source_window cr (widget_window env w (Some c))
                     0%float 0%float;
                   Ecairo_paint cr])
        (visible_children env wdg) ++
      [Eg_list_free (env_children env wdg)].
Proof.
  intros Hi. eexists. split; [apply draw_callback_run; exact Hi|].
  reflexivity.
Qed.

Lemma draw_callback_paints_witness :
  infos Demo.backed !! Demo.info
  = Some Demo.instance /\
  exists w',
    background_info_draw_callback Demo.env Demo.box Demo.cr Demo.info
      Demo.backed
    = Some (TRUE, w') /\
    trace w'
    = [Eg_mutex_lock Demo.info;
       Ecairo_set_source_surface Demo.cr (Some Demo.old_surface) 0%float 0%float;
       Ecairo_paint_with_alpha Demo.cr 0.5%float;
       Eg_mutex_unlock Demo.info;
       Egtk_container_get_children Demo.box;
       Egdk_cairo_set_source_window Demo.cr (Some 102%positive) 0%float 0%float;
       Ecairo_paint Demo.cr;
       Egdk_cairo_set_source_window Demo.cr (Some 104%positive) 0%float 0%float;
       Ecairo_paint Demo.cr;
       Eg_list_free [2; 3; 4]%positive].
Proof.
  split; [reflexivity|].
  destruct (draw_callback_paints Demo.env Demo.backed Demo.box Demo.cr Demo.info
              Demo.instance
              eq_refl) as (w' & Hrun & Htrace).
  exists w'. split; [exact Hrun|].
  rewrite Htrace. reflexivity.
Defined.

(** C9.  A redraw on an existing instance writes no field and no state:
    the instances (so [bg] and [alpha] of this one), the surfaces, the
    pixbufs and the rest are as before.  Every call it makes either draws
    into the context it was given, or is the lock or unlock of the
    instance's mutex, or is the fetch or the release of the temporary child
    list. *)
Theorem draw_callback_no_mutation (env : Env) (w : World) (wdg : GtkWidget)
    (cr : cairo_t) (info : positive) (i : BackgroundInfo) :
  infos w !! info = Some i ->
  exists w' evs,
    background_info_draw_callback env wdg cr info w = Some (TRUE, w') /\
    same_state w w' /\
    infos w' !! info = Some i /\
    trace w' = trace w ++ evs /\
    forallb (fun e => is_draw_on cr e || is_transient info wdg e) evs = true.
Proof.
  intros Hi. eexists; eexists.
  split; [apply draw_callback_run; exact Hi|].
  split; [repeat split|].
  split; [exact Hi|].
  split; [reflexivity|].
  unfold draw_events, bg_events.
  rewrite !forallb_app, child_events_draw.
  destruct (bg i); simpl; rewrite !Pos.eqb_refl; reflexivity.
Qed.

Lemma draw_callback_no_mutation_witness :
  infos Demo.backed !! Demo.info
  = Some Demo.instance /\
  exists w' evs,
    background_info_draw_callback Demo.env Demo.box Demo.cr Demo.info
      Demo.backed
    = Some (TRUE, w') /\
    same_state Demo.backed w' /\
    infos w' !! Demo.info
    = Some Demo.instance /\
    trace w' = trace Demo.backed ++ evs /\
    forallb (fun e => is_draw_on Demo.cr e || is_transient Demo.info Demo.box e) evs
    = true.
Proof.
  split; [reflexivity|].
  exact (draw_callback_no_mutation Demo.env Demo.backed Demo.box Demo.cr Demo.info
           Demo.instance
           eq_refl).
Defined.

(** C10.  In a redraw, [alpha] reaches the background only.  The calls
    before the fetch of the child list contain no plain [cairo_paint]; the
    calls after it contain no [cairo_paint_with_alpha], and one plain
    [cairo_paint] for each visible child.  So, when the visible children are
    realized (as those of a container that is being drawn are), what the
    redraw paints, whatever the source of the context was before, is the
    background surface with opacity [alpha], if there is one, and on top of
    it the window of each visible child with opacity 1, whatever [alpha]
    is. *)
Theorem draw_callback_children_opaque (env : Env) (w : World) (wdg : GtkWidget)
    (cr : cairo_t) (info : positive) (i : BackgroundInfo) :
  infos w !! info = Some i ->
  exists w' pre post,
    background_info_draw_callback env wdg cr info w = Some (TRUE, w') /\
    trace w' = trace w ++ pre ++ Egtk_container_get_children wdg :: post /\
    List.filter is_paint pre = [] /\
    length (List.filter is_paint_with_alpha pre)
    = match bg i with Some _ => 1%nat | None => 0%nat end /\
    existsb is_paint_with_alpha post = false /\
    length (List.filter is_paint post) = length (visible_children env wdg) /\
    (forallb (is_realized w) (visible_children env wdg) = true ->
     forall src,
       render cr src (pre ++ Egtk_container_get_children wdg :: post)
       = match bg i with
         | Some s => [mkLayer (SrcSurface s 0%float 0%float) (alpha i)]
         | None => []
         end ++
         map (fun c => mkLayer (SrcWindow (env_window env c) 0%float 0%float)
                         1%float)
           (visible_children env wdg)).
Proof.
  intros Hi.
  exists (set_trace (trace w ++ draw_events env cr w wdg info i) w),
         (bg_events cr info i),
         (child_events env cr w (env_children env wdg) ++
          [Eg_list_free (env_children env wdg)]).
  split; [apply draw_callback_run; exact Hi|].
  split; [reflexivity|].
  destruct (child_events_plain env cr w (env_children env wdg)
              [Eg_list_free (env_children env wdg)] eq_refl eq_refl)
    as [Halpha Hpaint].
  unfold bg_events, visible_children.
  split; [destruct (bg i); reflexivity|].
  split; [destruct (bg i); reflexivity|].
  split; [exact Halpha|].
  split; [exact Hpaint|].
  intros Hreal src.
  destruct (bg i); simpl; rewrite ?Pos.eqb_refl; simpl;
    try f_equal; apply render_child_events; try exact Hreal; reflexivity.
Qed.

Lemma draw_callback_children_opaque_witness :
  infos Demo.backed !! Demo.info
  = Some Demo.instance /\
  exists w' evs,
    background_info_draw_callback Demo.env Demo.box Demo.cr Demo.info
      Demo.backed
    = Some (TRUE, w') /\
    trace w' = trace Demo.backed ++ evs /\
    render Demo.cr SrcBlack evs
    = [mkLayer (SrcSurface Demo.old_surface 0%float 0%float) 0.5%float;
       mkLayer (SrcWindow 102%positive 0%float 0%float) 1%float;
       mkLayer (SrcWindow 104%positive 0%float 0%float) 1%float].
Proof.
  split; [reflexivity|].
  destruct (draw_callback_children_opaque Demo.env Demo.backed Demo.box
              Demo.cr Demo.info
              Demo.instance
              eq_refl)
    as (w' & pre & post & Hrun & Htrace & _ & _ & _ & _ & Hrender).
  exists w', (pre ++ Egtk_container_get_children Demo.box :: post).
  split; [exact Hrun|]. split; [exact Htrace|].
  rewrite (Hrender eq_refl SrcBlack). reflexivity.
Defined.

(** ** changeAlpha *)

(** C8.  On an existing instance, [background_info_change_alpha] with the
    same value twice in a row ends in the same state as once: the same
    instances (this one with [alpha] set to the value and the other fields
    kept), surfaces and so on; only the trace is one write and one
    invalidation request longer.  A redraw after the two calls makes the
    same calls and returns the same as a redraw after the one, so paints
    the same. *)
Theorem change_alpha_idempotent (env : Env) (w : World) (info : positive)
    (i : BackgroundInfo) (a : gdouble) :
  infos w !! info = Some i ->
  exists w1 w2,
    background_info_change_alpha env info a w = Some (tt, w1) /\
    change_alpha_twice env info a w = Some (tt, w2) /\
    same_state w1 w2 /\
    infos w1 !! info = Some (mkBackgroundInfo (container i) (bg i) a) /\
    forall (wdg : GtkWidget) (cr : cairo_t),
    exists evs w1' w2',
      background_info_draw_callback env wdg cr info w1 = Some (TRUE, w1') /\
      trace w1' = trace w1 ++ evs /\
      background_info_draw_callback env wdg cr info w2 = Some (TRUE, w2') /\
      trace w2' = trace w2 ++ evs.
Proof.
  intros Hi.
  pose proof (change_alpha_run env w info i a Hi) as H1.
  assert (H2 : change_alpha_twice env info a w
               = Some (tt,
                       mkWorld
                         (<[info := mkBackgroundInfo (container i) (bg i) a]> (infos w))
                         (surfaces w) (pixbufs w) (realized w) (traps w)
                         (trace w ++
                          [Eset_alpha info a;
                           Egdk_window_invalidate_rect
                             (widget_window env w (container i)) None FALSE;
                           Eset_alpha info a;
                           Egdk_window_invalidate_rect
                             (widget_window env w (container i)) None FALSE]))).
  { unfold change_alpha_twice, bind. rewrite H1.
    erewrite change_alpha_run by apply lookup_insert_eq.
    simpl. rewrite insert_insert_eq. rewrite <- ?app_assoc. reflexivity. }
  eexists; eexists.
  split; [exact H1|]. split; [exact H2|].
  split; [repeat split|].
  split; [apply lookup_insert_eq|].
  intros wdg cr.
  exists (draw_events env cr w wdg info (mkBackgroundInfo (container i) (bg i) a)).
  eexists; eexists.
  split; [apply draw_callback_run, lookup_insert_eq|].
  split; [reflexivity|].
  split; [apply draw_callback_run, lookup_insert_eq|].
  reflexivity.
Qed.

Lemma change_alpha_idempotent_witness :
  infos Demo.backed !! Demo.info
  = Some Demo.instance /\
  exists w1 w2,
    background_info_change_alpha Demo.env Demo.info 0.25%float Demo.backed
    = Some (tt, w1) /\
    change_alpha_twice Demo.env Demo.info 0.25%float Demo.backed = Some (tt, w2) /\
    same_state w1 w2 /\
    infos w1 !! Demo.info
    = Some (mkBackgroundInfo (Some Demo.box) (Some Demo.old_surface) 0.25%float).
Proof.
  split; [reflexivity|].
  destruct (change_alpha_idempotent Demo.env Demo.backed Demo.info
              Demo.instance
              0.25%float eq_refl) as (w1 & w2 & Hone & Htwo & Hsame & Hi & _).
  exists w1, w2. repeat split; try assumption; apply Hsame.
Defined.

(** * Beyond the claims *)

(** ** Ownership of the surfaces is kept *)

Section Ownership.

Lemma release_is_Some (b : option cairo_surface_t)
    (m : gmap positive surface_obj) (s : cairo_surface_t) :
  is_Some (release b m !! s) <-> is_Some (m !! s) /\ b <> Some s.
Proof.
  destruct b as [s0|]; simpl.
  - destruct (decide (s0 = s)) as [->|Hne].
    + rewrite lookup_delete_eq. split.
      * intros [x Hx]. discriminate Hx.
      * intros [_ Hb]. congruence.
    + rewrite lookup_delete_ne by exact Hne. split.
      * intros Hs. split; [exact Hs | congruence].
      * intros [Hs _]. exact Hs.
  - split.
    + intros Hs. split; [exact Hs | discriminate].
    + intros [Hs _]. exact Hs.
Qed.

Lemma owns_frame (w w' : World) :
  infos w' = infos w -> surfaces w' = surfaces w ->
  owns_exactly w -> owns_exactly w'.
Proof.
  intros Hi Hs [Hlive Honce Hheld].
  constructor; rewrite ?Hi, ?Hs; assumption.
Qed.

(** A setter that succeeds: the old surface goes, a fresh one comes. *)
Lemma owns_install (w w' : World) (info : positive) (i : BackgroundInfo)
    (obj : surface_obj) :
  owns_exactly w ->
  infos w !! info = Some i ->
  infos w'
  = <[info := mkBackgroundInfo (container i)
                (Some (fresh (dom (release (bg i) (surfaces w))))) (alpha i)]>
      (infos w) ->
  surfaces w'
  = <[fresh (dom (release (bg i) (surfaces w))) := obj]>
      (release (bg i) (surfaces w)) ->
  owns_exactly w'.
Proof.
  intros [Hlive Honce Hheld] Hi Hinfos Hsurf.
  set (live := release (bg i) (surfaces w)) in *.
  set (s := fresh (dom live)) in *.
  assert (Hfresh : live !! s = None) by apply fresh_lookup_None.
  assert (Hother : forall p j s', p <> info -> infos w !! p = Some j ->
                     bg j = Some s' -> is_Some (live !! s')).
  { intros p j s' Hp Hj Hb. apply release_is_Some. split.
    - eapply Hlive; eassumption.
    - intros Hbi. apply Hp. eapply Honce; eassumption. }
  constructor.
  - intros p j s' Hp Hb. rewrite Hinfos in Hp. rewrite Hsurf.
    destruct (decide (s = s')) as [<-|Hs].
    + rewrite lookup_insert_eq. eauto.
    + rewrite lookup_insert_ne by exact Hs.
      destruct (decide (info = p)) as [<-|Hne].
      * rewrite lookup_insert_eq in Hp. injection Hp as <-.
        simpl in Hb. congruence.
      * rewrite lookup_insert_ne in Hp by exact Hne.
        eapply Hother; [|eassumption..]. congruence.
  - intros p q j1 j2 s' Hp Hq Hb1 Hb2. rewrite Hinfos in Hp, Hq.
    destruct (decide (info = p)) as [<-|Hp'], (decide (info = q)) as [<-|Hq'];
      try reflexivity.
    + rewrite lookup_insert_eq in Hp. injection Hp as <-. simpl in Hb1.
      injection Hb1 as <-.
      rewrite lookup_insert_ne in Hq by exact Hq'.
      assert (Hs : is_Some (live !! s)).
      { eapply Hother; [|eassumption..]. congruence. }
      rewrite Hfresh in Hs. destruct Hs as [x Hx]. discriminate Hx.
    + rewrite lookup_insert_eq in Hq. injection Hq as <-. simpl in Hb2.
      injection Hb2 as <-.
      rewrite lookup_insert_ne in Hp by exact Hp'.
      assert (Hs : is_Some (live !! s)).
      { eapply Hother; [|eassumption..]. congruence. }
      rewrite Hfresh in Hs. destruct Hs as [x Hx]. discriminate Hx.
    + rewrite lookup_insert_ne in Hp by exact Hp'.
      rewrite lookup_insert_ne in Hq by exact Hq'.
      eapply Honce; eassumption.
  - intros s' Hs'. rewrite Hsurf in Hs'. rewrite Hinfos.
    destruct (decide (s = s')) as [<-|Hs].
    + eexists info, _. rewrite lookup_insert_eq. split; reflexivity.
    + rewrite lookup_insert_ne in Hs' by exact Hs.
      apply release_is_Some in Hs' as [Hl Hb].
      destruct (Hheld s' Hl) as (p & j & Hp & Hbj).
      exists p, j. split; [|exact Hbj].
      rewrite lookup_insert_ne; [exact Hp|].
      intros <-. rewrite Hi in Hp. injection Hp as <-. congruence.
Qed.

(** A write that keeps [bg]: a new instance without surface, or another
    [alpha] for an instance. *)
Lemma owns_insert_same_bg (w w' : World) (p : positive) (i' : BackgroundInfo) :
  owns_exactly w ->
  infos w !! p ≫= bg = bg i' ->
  infos w' = <[p := i']> (infos w) ->
  surfaces w' = surfaces w ->
  owns_exactly w'.
Proof.
  intros [Hlive Honce Hheld] Hbg Hinfos Hsurf.
  assert (Hold : forall q j s, infos w' !! q = Some j -> bg j = Some s ->
                   exists j0, infos w !! q = Some j0 /\ bg j0 = Some s).
  { intros q j s Hq Hb. rewrite Hinfos in Hq.
    destruct (decide (p = q)) as [<-|Hne].
    - rewrite lookup_insert_eq in Hq. injection Hq as <-.
      rewrite Hb in Hbg. apply bind_Some in Hbg. exact Hbg.
    - rewrite lookup_insert_ne in Hq by exact Hne. eauto. }
  constructor.
  - intros q j s Hq Hb. rewrite Hsurf.
    destruct (Hold q j s Hq Hb) as (j0 & Hq0 & Hb0). eapply Hlive; eassumption.
  - intros q1 q2 j1 j2 s Hq1 Hq2 Hb1 Hb2.
    destruct (Hold q1 j1 s Hq1 Hb1) as (k1 & Hk1 & Hkb1).
    destruct (Hold q2 j2 s Hq2 Hb2) as (k2 & Hk2 & Hkb2).
    eapply Honce; eassumption.
  - intros s Hs. rewrite Hsurf in Hs.
    destruct (Hheld s Hs) as (q & j & Hq & Hb). rewrite Hinfos.
    destruct (decide (p = q)) as [<-|Hne].
    + exists p, i'. rewrite lookup_insert_eq. split; [reflexivity|].
      rewrite Hq in Hbg. simpl in Hbg. congruence.
    + exists q, j. rewrite lookup_insert_ne by exact Hne. split; assumption.
Qed.

Lemma owns_clear (w w' : World) (info : positive) (i : BackgroundInfo) :
  owns_exactly w ->
  infos w !! info = Some i ->
  infos w' = delete info (infos w) ->
  surfaces w' = release (bg i) (surfaces w) ->
  owns_exactly w'.
Proof.
  intros [Hlive Honce Hheld] Hi Hinfos Hsurf.
  constructor.
  - intros p j s Hp Hb. rewrite Hinfos in Hp. rewrite Hsurf.
    apply lookup_delete_Some in Hp as [Hne Hp].
    apply release_is_Some. split; [eapply Hlive; eassumption|].
    intros Hbi. apply Hne. eapply Honce; eassumption.
  - intros p q j1 j2 s Hp Hq Hb1 Hb2. rewrite Hinfos in Hp, Hq.
    apply lookup_delete_Some in Hp as [_ Hp].
    apply lookup_delete_Some in Hq as [_ Hq].
    eapply Honce; eassumption.
  - intros s Hs. rewrite Hsurf in Hs. rewrite Hinfos.
    apply release_is_Some in Hs as [Hl Hb].
    destruct (Hheld s Hl) as (p & j & Hp & Hbj).
    exists p, j. split; [|exact Hbj].
    apply lookup_delete_Some. split; [|exact Hp].
    intros <-. rewrite Hi in Hp. injection Hp as <-. congruence.
Qed.

Lemma owns_empty : owns_exactly (mkWorld ∅ ∅ ∅ ∅ [] []).
Proof.
  constructor; simpl.
  - intros p i s Hp. rewrite lookup_empty in Hp. discriminate Hp.
  - intros p q i j s Hp. rewrite lookup_empty in Hp. discriminate Hp.
  - intros s [x Hs]. rewrite lookup_empty in Hs. discriminate Hs.
Qed.

End Ownership.

(** ** A freed or never allocated instance *)

Section Missing.

Variable env : Env.

Lemma draw_callback_missing (w : World) (wdg : GtkWidget) (cr : cairo_t)
    (info : positive) :
  infos w !! info = None ->
  background_info_draw_callback env wdg cr info w = None.
Proof.
  intros Hi. unfold background_info_draw_callback. unfold_ops.
  simpl. rewrite Hi. reflexivity.
Qed.

Lemma set_by_drawable_missing (w : World) (info : positive)
    (drawable : guint32) (geom : guint * guint) :
  infos w !! info = None ->
  env_geometry env drawable = Some geom ->
  background_info_set_background_by_drawable env info drawable w = None.
Proof.
  intros Hi Hok. unfold background_info_set_background_by_drawable.
  unfold_ops. simpl. rewrite Hok. simpl. rewrite Hi. reflexivity.
Qed.

Lemma set_by_file_missing (w : World) (info : positive) (file : string)
    (img : image) :
  infos w !! info = None ->
  env_decode env file = inr img ->
  background_info_set_background_by_file env info file w = None.
Proof.
  intros Hi Hok. unfold background_info_set_background_by_file.
  unfold_ops. simpl. rewrite Hok. simpl. rewrite Hi. reflexivity.
Qed.

Lemma change_alpha_missing (w : World) (info : positive) (a : gdouble) :
  infos w !! info = None ->
  background_info_change_alpha env info a w = None.
Proof.
  intros Hi. unfold background_info_change_alpha. unfold_ops.
  simpl. rewrite Hi. reflexivity.
Qed.

Lemma clear_missing (w : World) (info : positive) :
  infos w !! info = None ->
  background_info_clear info w = None.
Proof.
  intros Hi. unfold background_info_clear. unfold_ops.
  simpl. rewrite Hi. reflexivity.
Qed.

(** One call on an allocated instance, or a create. *)
Lemma run_call_step (w : World) (c : api_call) :
  owns_exactly w ->
  call_ready w c ->
  exists w',
    run_call env c w = Some (tt, w') /\
    owns_exactly w' /\ pixbufs w' = pixbufs w /\ traps w' = traps w.
Proof.
  intros Hw Hready. destruct c as [ct ch|wdg cr info|info d|info f|info a|info];
    simpl in Hready; simpl;
    [|destruct Hready as [i Hi]..].
  - unfold bind. rewrite create_run. eexists. split; [reflexivity|].
    split; [|split; reflexivity].
    eapply owns_insert_same_bg; [exact Hw| |reflexivity|reflexivity].
    rewrite fresh_lookup_None. reflexivity.
  - unfold bind. rewrite (draw_callback_run env cr w wdg info i Hi).
    eexists. split; [reflexivity|]. split; [|split; reflexivity].
    eapply owns_frame; [| |exact Hw]; reflexivity.
  - destruct (env_geometry env d) as [[wd ht]|] eqn:Hg.
    + rewrite (set_by_drawable_ok_run env w info i d wd ht Hi Hg).
      eexists. split; [reflexivity|]. split; [|split; reflexivity].
      eapply owns_install; [exact Hw|exact Hi| |]; reflexivity.
    + rewrite (set_by_drawable_fail_run env w info d Hg).
      eexists. split; [reflexivity|]. split; [|split; reflexivity].
      eapply owns_frame; [| |exact Hw]; reflexivity.
  - destruct (env_decode env f) as [e|img] eqn:Hd.
    + rewrite (set_by_file_fail_run env w info f e Hd).
      eexists. split; [reflexivity|]. split; [|split; reflexivity].
      eapply owns_frame; [| |exact Hw]; reflexivity.
    + rewrite (set_by_file_ok_run env w info i f img Hi Hd).
      eexists. split; [reflexivity|]. split; [|split; reflexivity].
      eapply owns_install; [exact Hw|exact Hi| |]; reflexivity.
  - rewrite (change_alpha_run env w info i a Hi).
    eexists. split; [reflexivity|]. split; [|split; reflexivity].
    eapply owns_insert_same_bg; [exact Hw| |reflexivity|reflexivity].
    rewrite Hi. reflexivity.
  - rewrite (clear_run w info i Hi).
    eexists. split; [reflexivity|]. split; [|split; reflexivity].
    eapply owns_clear; [exact Hw|exact Hi| |]; reflexivity.
Qed.

(** One call that returns, on whatever pointer. *)
Lemma run_call_returns (w w' : World) (c : api_call) (u : unit) :
  owns_exactly w ->
  run_call env c w = Some (u, w') ->
  owns_exactly w' /\ pixbufs w' = pixbufs w /\ traps w' = traps w.
Proof.
  intros Hw Hrun.
  assert (Hstep : call_ready w c ->
                  owns_exactly w' /\ pixbufs w' = pixbufs w /\ traps w' = traps w).
  { intros Hready.
    destruct (run_call_step w c Hw Hready) as (w1 & Hrun1 & Hfacts).
    rewrite Hrun1 in Hrun. injection Hrun as _ <-. exact Hfacts. }
  destruct c as [ct ch|wdg cr info|info d|info f|info a|info]; simpl in *.
  - apply Hstep. exact I.
  - destruct (infos w !! info) as [i|] eqn:Hi; [apply Hstep; eauto|].
    unfold bind in Hrun.
    rewrite (draw_callback_missing w wdg cr info Hi) in Hrun. discriminate Hrun.
  - destruct (infos w !! info) as [i|] eqn:Hi; [apply Hstep; eauto|].
    destruct (env_geometry env d) as [geom|] eqn:Hg.
    + rewrite (set_by_drawable_missing w info d geom Hi Hg) in Hrun.
      discriminate Hrun.
    + rewrite (set_by_drawable_fail_run env w info d Hg) in Hrun.
      injection Hrun as _ <-. split; [|split; reflexivity].
      eapply owns_frame; [| |exact Hw]; reflexivity.
  - destruct (infos w !! info) as [i|] eqn:Hi; [apply Hstep; eauto|].
    destruct (env_decode env f) as [e|img] eqn:Hd.
    + rewrite (set_by_file_fail_run env w info f e Hd) in Hrun.
      injection Hrun as _ <-. split; [|split; reflexivity].
      eapply owns_frame; [| |exact Hw]; reflexivity.
    + rewrite (set_by_file_missing w info f img Hi Hd) in Hrun.
      discriminate Hrun.
  - destruct (infos w !! info) as [i|] eqn:Hi; [apply Hstep; eauto|].
    rewrite (change_alpha_missing w info a Hi) in Hrun. discriminate Hrun.
  - destruct (infos w !! info) as [i|] eqn:Hi; [apply Hstep; eauto|].
    rewrite (clear_missing w info Hi) in Hrun. discriminate Hrun.
Qed.

End Missing.

(** X1.  One call of the interface, on an allocated instance or a create,
    always returns, and it keeps the ownership of the surfaces: afterwards
    again every surface an instance holds is live, no surface is held
    twice, and no live surface is without an instance.  It leaves no pixbuf
    behind and the stack of X error traps as it found it. *)
Theorem api_call_keeps_ownership (env : Env) (w : World) (c : api_call) :
  owns_exactly w ->
  call_ready w c ->
  exists w',
    run_call env c w = Some (tt, w') /\
    owns_exactly w' /\ pixbufs w' = pixbufs w /\ traps w' = traps w.
Proof.
  intros Hw Hready. exact (run_call_step env w c Hw Hready).
Qed.

(** X2.  Every run of calls of the interface that returns keeps the
    ownership of the surfaces, on whatever pointers the calls were made:
    between calls there is never a dangling [bg], a surface shared by two
    instances, or a leaked surface. *)
Theorem api_calls_keep_ownership (env : Env) (l : list api_call) :
  forall w w',
    owns_exactly w ->
    run_calls env l w = Some (tt, w') ->
    owns_exactly w' /\ pixbufs w' = pixbufs w /\ traps w' = traps w.
Proof.
  induction l as [|c l IH]; intros w w' Hw Hrun; simpl in Hrun.
  - injection Hrun as <-. split; [exact Hw | split; reflexivity].
  - unfold bind in Hrun.
    destruct (run_call env c w) as [[u w1]|] eqn:Hc; [|discriminate Hrun].
    destruct (run_call_returns env w w1 c u Hw Hc) as (Hw1 & Hp1 & Ht1).
    destruct (IH w1 w' Hw1 Hrun) as (Hw' & Hp' & Ht').
    split; [exact Hw'|]. split; congruence.
Qed.

Lemma run_calls_owns (env : Env) (l : list api_call) :
  forall w w',
    owns_exactly w ->
    run_calls env l w = Some (tt, w') ->
    owns_exactly w'.
Proof.
  induction l as [|c l IH]; intros w w' Hw Hrun; simpl in Hrun.
  - injection Hrun as <-. exact Hw.
  - unfold bind in Hrun.
    destruct (run_call env c w) as [[u w1]|] eqn:Hc; [|discriminate Hrun].
    destruct (run_call_returns env w w1 c u Hw Hc) as (Hw1 & _).
    exact (IH w1 w' Hw1 Hrun).
Qed.

Lemma owns_backed : owns_exactly Demo.backed.
Proof.
  constructor; simpl.
  - intros p i s Hp Hb.
    apply lookup_insert_Some in Hp as [[<- <-]|[_ Hp]].
    + simpl in Hb. injection Hb as <-. rewrite lookup_insert_eq. eauto.
    + rewrite lookup_empty in Hp. discriminate Hp.
  - intros p q i j s Hp Hq _ _.
    apply lookup_insert_Some in Hp as [[<- _]|[_ Hp]];
      [|rewrite lookup_empty in Hp; discriminate Hp].
    apply lookup_insert_Some in Hq as [[<- _]|[_ Hq]];
      [reflexivity|rewrite lookup_empty in Hq; discriminate Hq].
  - intros s [x Hs].
    apply lookup_insert_Some in Hs as [[<- _]|[_ Hs]].
    + exists Demo.info, Demo.instance. rewrite lookup_insert_eq.
      split; reflexivity.
    + rewrite lookup_empty in Hs. discriminate Hs.
Qed.

Lemma api_call_keeps_ownership_witness :
  owns_exactly Demo.backed /\
  call_ready Demo.backed (SetFile Demo.info "bg.png") /\
  exists w',
    run_call Demo.env (SetFile Demo.info "bg.png") Demo.backed = Some (tt, w') /\
    owns_exactly w' /\ pixbufs w' = pixbufs Demo.backed /\
    traps w' = traps Demo.backed.
Proof.
  assert (Hready : call_ready Demo.backed (SetFile Demo.info "bg.png")).
  { exists Demo.instance. reflexivity. }
  split; [exact owns_backed|]. split; [exact Hready|].
  exact (api_call_keeps_ownership Demo.env Demo.backed
           (SetFile Demo.info "bg.png") owns_backed Hready).
Defined.

Lemma api_calls_keep_ownership_witness :
  owns_exactly Demo.empty /\
  exists w',
    run_calls Demo.env (demo_session 1) Demo.empty = Some (tt, w') /\
    owns_exactly w' /\ pixbufs w' = pixbufs Demo.empty /\
    traps w' = traps Demo.empty.
Proof.
  split; [exact owns_empty|].
  assert (Hrun : exists w',
             run_calls Demo.env (demo_session 1) Demo.empty = Some (tt, w')).
  { eexists. vm_compute. reflexivity. }
  destruct Hrun as [w' Hrun]. exists w'. split; [exact Hrun|].
  exact (api_calls_keep_ownership Demo.env (demo_session 1) Demo.empty w'
           owns_empty Hrun).
Defined.

(** X3.  No leak at the end: after any run of calls that returns, started
    where the surfaces are owned, if no instance is left then no surface is
    live. *)
Theorem no_instance_no_surface (env : Env) (l : list api_call) (w w' : World) :
  owns_exactly w ->
  run_calls env l w = Some (tt, w') ->
  infos w' = ∅ ->
  surfaces w' = ∅.
Proof.
  intros Hw Hrun Hnone.
  pose proof (run_calls_owns env l w w' Hw Hrun) as [_ _ Hheld].
  apply map_eq. intros s. rewrite lookup_empty.
  destruct (surfaces w' !! s) as [obj|] eqn:Hs; [|reflexivity].
  destruct (Hheld s (ex_intro _ obj Hs)) as (p & i & Hp & _).
  rewrite Hnone, lookup_empty in Hp. discriminate Hp.
Qed.

Lemma no_instance_no_surface_witness :
  owns_exactly Demo.empty /\
  exists w',
    run_calls Demo.env (demo_session 1) Demo.empty = Some (tt, w') /\
    infos w' = ∅ /\
    surfaces w' = ∅.
Proof.
  split; [exact owns_empty|].
  assert (Hrun : exists w',
             run_calls Demo.env (demo_session 1) Demo.empty = Some (tt, w') /\
             infos w' = ∅).
  { eexists. split; vm_compute; reflexivity. }
  destruct Hrun as (w' & Hrun & Hnone). exists w'.
  split; [exact Hrun|]. split; [exact Hnone|].
  exact (no_instance_no_surface Demo.env (demo_session 1) Demo.empty w'
           owns_empty Hrun Hnone).
Defined.

(** ** The other instances *)

Lemma release_lookup_ne (b : option cairo_surface_t)
    (m : gmap positive surface_obj) (s : cairo_surface_t) :
  b <> Some s -> release b m !! s = m !! s.
Proof.
  intros Hb. destruct b as [s0|]; simpl; [|reflexivity].
  apply lookup_delete_ne. congruence.
Qed.

Lemma other_not_released (w : World) (info p : positive) (i j : BackgroundInfo)
    (s : cairo_surface_t) :
  owns_exactly w ->
  infos w !! info = Some i -> infos w !! p = Some j -> info <> p ->
  bg j = Some s ->
  bg i <> Some s.
Proof.
  intros [_ Honce _] Hi Hj Hne Hb Hbi. apply Hne.
  eapply Honce; eassumption.
Qed.

Lemma install_frame (w : World) (info p : positive) (i j : BackgroundInfo)
    (obj : surface_obj) (s : cairo_surface_t) :
  owns_exactly w ->
  infos w !! info = Some i -> infos w !! p = Some j -> info <> p ->
  bg j = Some s ->
  <[fresh (dom (release (bg i) (surfaces w))) := obj]>
    (release (bg i) (surfaces w)) !! s
  = surfaces w !! s.
Proof.
  intros Hw Hi Hj Hne Hb.
  pose proof (other_not_released w info p i j s Hw Hi Hj Hne Hb) as Hbi.
  assert (Hlive : is_Some (release (bg i) (surfaces w) !! s)).
  { apply release_is_Some. split; [|exact Hbi].
    destruct Hw as [Hlive _ _]. eapply Hlive; eassumption. }
  rewrite lookup_insert_ne.
  - apply release_lookup_ne. exact Hbi.
  - intros Hs. rewrite <- Hs, fresh_lookup_None in Hlive.
    destruct Hlive as [x Hx]. discriminate Hx.
Qed.

(** X4.  A call leaves the other instances alone: an instance that is not
    the one the call works on has the same fields afterwards, and the
    surface it holds is the same live surface.  A create touches none of
    the instances there are. *)
Theorem api_call_leaves_others (env : Env) (w : World) (c : api_call)
    (p : positive) (j : BackgroundInfo) :
  owns_exactly w ->
  call_ready w c ->
  call_target c <> Some p ->
  infos w !! p = Some j ->
  exists w',
    run_call env c w = Some (tt, w') /\
    infos w' !! p = Some j /\
    forall s, bg j = Some s -> surfaces w' !! s = surfaces w !! s.
Proof.
  intros Hw Hready Htarget Hj.
  destruct c as [ct ch|wdg cr info|info d|info f|info a|info];
    simpl in Hready; simpl;
    [|destruct Hready as [i Hi];
      assert (Hne : info <> p) by (intros ->; apply Htarget; reflexivity)..].
  - unfold bind. rewrite create_run. eexists. split; [reflexivity|]. simpl.
    split; [|reflexivity].
    rewrite lookup_insert_ne; [exact Hj|].
    intros Hp. rewrite <- Hp, fresh_lookup_None in Hj. discriminate Hj.
  - unfold bind. rewrite (draw_callback_run env cr w wdg info i Hi).
    eexists. split; [reflexivity|]. split; [exact Hj | reflexivity].
  - destruct (env_geometry env d) as [[wd ht]|] eqn:Hg.
    + rewrite (set_by_drawable_ok_run env w info i d wd ht Hi Hg).
      eexists. split; [reflexivity|]. simpl. split.
      * rewrite lookup_insert_ne by exact Hne. exact Hj.
      * intros s Hb. eapply install_frame; eassumption.
    + rewrite (set_by_drawable_fail_run env w info d Hg).
      eexists. split; [reflexivity|]. split; [exact Hj | reflexivity].
  - destruct (env_decode env f) as [e|img] eqn:Hd.
    + rewrite (set_by_file_fail_run env w info f e Hd).
      eexists. split; [reflexivity|]. split; [exact Hj | reflexivity].
    + rewrite (set_by_file_ok_run env w info i f img Hi Hd).
      eexists. split; [reflexivity|]. simpl. split.
      * rewrite lookup_insert_ne by exact Hne. exact Hj.
      * intros s Hb. eapply install_frame; eassumption.
  - rewrite (change_alpha_run env w info i a Hi).
    eexists. split; [reflexivity|]. simpl. split; [|reflexivity].
    rewrite lookup_insert_ne by exact Hne. exact Hj.
  - rewrite (clear_run w info i Hi).
    eexists. split; [reflexivity|]. simpl. split.
    + rewrite lookup_delete_ne by exact Hne. exact Hj.
    + intros s Hb. apply release_lookup_ne.
      eapply other_not_released; eassumption.
Qed.

Lemma api_call_leaves_others_witness :
  owns_exactly Demo.backed /\
  infos Demo.backed !! Demo.info = Some Demo.instance /\
  exists w',
    run_call Demo.env (Create Demo.box Demo.overlay) Demo.backed = Some (tt, w') /\
    infos w' !! Demo.info = Some Demo.instance /\
    surfaces w' !! Demo.old_surface = surfaces Demo.backed !! Demo.old_surface.
Proof.
  split; [exact owns_backed|]. split; [reflexivity|].
  assert (Htarget : call_target (Create Demo.box Demo.overlay) <> Some Demo.info)
    by discriminate.
  destruct (api_call_leaves_others Demo.env Demo.backed
              (Create Demo.box Demo.overlay) Demo.info Demo.instance
              owns_backed I Htarget eq_refl) as (w' & Hrun & Hinst & Hsurf).
  exists w'. split; [exact Hrun|]. split; [exact Hinst|].
  apply Hsurf. reflexivity.
Defined.

(** ** The lock *)

Lemma lock_scan_children (env : Env) (cr : cairo_t) (w : World) (info : positive)
    (l l0 : list GtkWidget) :
  lock_scan info is_bg_paint is_child_paint false
    (child_events env cr w l ++ [Eg_list_free l0])
  = Some false.
Proof.
  unfold child_events.
  induction (List.filter (env_visible env) l) as [|c l' IH];
    [reflexivity | exact IH].
Qed.

(** X5.  [background_info_set_background_by_drawable] on an allocated
    instance.  On a drawable without geometry it neither takes the lock nor
    changes a surface.  On a drawable with a geometry it takes the lock
    exactly once: its calls are the geometry request, the lock, then
    nothing but releases, creations and assignments of a surface, the
    unlock, and the invalidation.  In both cases the scan of the lock ends
    with the lock free. *)
Theorem set_background_by_drawable_locking (env : Env) (w : World)
    (info : positive) (i : BackgroundInfo) (drawable : guint32) :
  infos w !! info = Some i ->
  exists w' evs,
    background_info_set_background_by_drawable env info drawable w = Some (tt, w') /\
    trace w' = trace w ++ evs /\
    lock_scan info is_surface_change is_slow_call false evs = Some false /\
    match env_geometry env drawable with
    | None =>
        existsb is_lock_call evs = false /\
        existsb is_surface_change evs = false
    | Some _ =>
        exists mid win,
          evs = EXGetGeometry (env_display env) drawable ::
                Eg_mutex_lock info ::
                mid ++
                [Eg_mutex_unlock info;
                 Egdk_window_invalidate_rect win None FALSE] /\
          mid <> [] /\
          forallb is_surface_change mid = true
    end.
Proof.
  intros Hi. destruct (env_geometry env drawable) as [[wd ht]|] eqn:Hg.
  - eexists; eexists.
    split; [apply (set_by_drawable_ok_run env w info i drawable wd ht Hi Hg)|].
    split; [reflexivity|].
    split; [destruct (bg i); simpl; rewrite !Pos.eqb_refl; reflexivity|].
    exists (release_events info (bg i) ++
            [Ecairo_xlib_surface_create
               (fresh (dom (release (bg i) (surfaces w))))
               (env_display env) drawable (env_visual env)
               (gint_of wd) (gint_of ht);
             Eset_bg info (Some (fresh (dom (release (bg i) (surfaces w)))))]),
           (widget_window env w (container i)).
    split; [simpl; rewrite <- app_assoc; reflexivity|].
    split; [destruct (bg i); discriminate|].
    destruct (bg i); reflexivity.
  - eexists; eexists.
    split; [apply (set_by_drawable_fail_run env w info drawable Hg)|].
    split; [reflexivity|]. split; [reflexivity|]. split; reflexivity.
Qed.

Lemma set_background_by_drawable_locking_witness :
  infos Demo.backed !! Demo.info = Some Demo.instance /\
  exists w' evs mid win,
    background_info_set_background_by_drawable Demo.env Demo.info 23068675
      Demo.backed
    = Some (tt, w') /\
    trace w' = trace Demo.backed ++ evs /\
    lock_scan Demo.info is_surface_change is_slow_call false evs = Some false /\
    evs = EXGetGeometry (env_display Demo.env) 23068675 ::
          Eg_mutex_lock Demo.info ::
          mid ++
          [Eg_mutex_unlock Demo.info;
           Egdk_window_invalidate_rect win None FALSE] /\
    mid <> [] /\
    forallb is_surface_change mid = true.
Proof.
  split; [reflexivity|].
  destruct (set_background_by_drawable_locking Demo.env Demo.backed Demo.info
              Demo.instance 23068675 eq_refl)
    as (w' & evs & Hrun & Htrace & Hscan & mid & win & Hevs & Hmid & Hall).
  exists w', evs, mid, win. repeat split; assumption.
Defined.

(** X6.  [background_info_set_background_by_file] on an allocated instance.
    On a file that does not decode it neither takes the lock nor changes a
    surface.  On a file that decodes it takes the lock exactly once, after
    the file is decoded: its calls are the message, the load of the file,
    the lock, then nothing but releases, creations and assignments of a
    surface, the unlock, and only then the unref of the pixbuf and the
    invalidation.  In both cases the scan of the lock ends with the lock
    free. *)
Theorem set_background_by_file_locking (env : Env) (w : World)
    (info : positive) (i : BackgroundInfo) (file : string) :
  infos w !! info = Some i ->
  exists w' evs,
    background_info_set_background_by_file env info file w = Some (tt, w') /\
    trace w' = trace w ++ evs /\
    lock_scan info is_surface_change is_slow_call false evs = Some false /\
    match env_decode env file with
    | inl _ =>
        existsb is_lock_call evs = false /\
        existsb is_surface_change evs = false
    | inr _ =>
        exists mid pb win,
          evs = Eg_message "background_info_set_background_by_file:%s"
                  [ArgStr file] ::
                Egdk_pixbuf_new_from_file file ::
                Eg_mutex_lock info ::
                mid ++
                [Eg_mutex_unlock info;
                 Eg_object_unref pb;
                 Egdk_window_invalidate_rect win None FALSE] /\
          mid <> [] /\
          forallb is_surface_change mid = true
    end.
Proof.
  intros Hi. destruct (env_decode env file) as [e|img] eqn:Hd.
  - eexists; eexists.
    split; [apply (set_by_file_fail_run env w info file e Hd)|].
    split; [reflexivity|]. split; [reflexivity|]. split; reflexivity.
  - eexists; eexists.
    split; [apply (set_by_file_ok_run env w info i file img Hi Hd)|].
    split; [reflexivity|].
    split; [destruct (bg i); simpl; rewrite !Pos.eqb_refl; reflexivity|].
    exists (release_events info (bg i) ++
            [Egdk_cairo_surface_create_from_pixbuf
               (fresh (dom (release (bg i) (surfaces w))))
               (fresh (dom (pixbufs w))) 1
               (widget_window env w (container i));
             Eset_bg info (Some (fresh (dom (release (bg i) (surfaces w)))))]),
           (fresh (dom (pixbufs w))),
           (widget_window env w (container i)).
    split; [simpl; rewrite <- app_assoc; reflexivity|].
    split; [destruct (bg i); discriminate|].
    destruct (bg i); reflexivity.
Qed.

Lemma set_background_by_file_locking_witness :
  infos Demo.backed !! Demo.info = Some Demo.instance /\
  exists w' evs mid pb win,
    background_info_set_background_by_file Demo.env Demo.info "bg.png"
      Demo.backed
    = Some (tt, w') /\
    trace w' = trace Demo.backed ++ evs /\
    lock_scan Demo.info is_surface_change is_slow_call false evs = Some false /\
    evs = Eg_message "background_info_set_background_by_file:%s"
            [ArgStr "bg.png"] ::
          Egdk_pixbuf_new_from_file "bg.png" ::
          Eg_mutex_lock Demo.info ::
          mid ++
          [Eg_mutex_unlock Demo.info;
           Eg_object_unref pb;
           Egdk_window_invalidate_rect win None FALSE] /\
    mid <> [] /\
    forallb is_surface_change mid = true.
Proof.
  split; [reflexivity|].
  destruct (set_background_by_file_locking Demo.env Demo.backed Demo.info
              Demo.instance "bg.png" eq_refl)
    as (w' & evs & Hrun & Htrace & Hscan & mid & pb & win & Hevs & Hmid & Hall).
  exists w', evs, mid, pb, win. repeat split; assumption.
Defined.

(** X7.  A redraw holds the lock only around the paint of the background:
    the surface is made the source and painted while the lock is held, the
    child list is fetched, painted and freed while it is not, and the lock
    is free at the return. *)
Theorem draw_callback_locking (env : Env) (w : World) (wdg : GtkWidget)
    (cr : cairo_t) (info : positive) (i : BackgroundInfo) :
  infos w !! info = Some i ->
  exists w' evs,
    background_info_draw_callback env wdg cr info w = Some (TRUE, w') /\
    trace w' = trace w ++ evs /\
    lock_scan info is_bg_paint is_child_paint false evs = Some false.
Proof.
  intros Hi. eexists; eexists.
  split; [apply (draw_callback_run env cr w wdg info i Hi)|].
  split; [reflexivity|].
  unfold draw_events, bg_events.
  destruct (bg i); simpl; rewrite ?Pos.eqb_refl; apply lock_scan_children.
Qed.

Lemma draw_callback_locking_witness :
  infos Demo.backed !! Demo.info = Some Demo.instance /\
  exists w' evs,
    background_info_draw_callback Demo.env Demo.box Demo.cr Demo.info Demo.backed
    = Some (TRUE, w') /\
    trace w' = trace Demo.backed ++ evs /\
    lock_scan Demo.info is_bg_paint is_child_paint false evs = Some false.
Proof.
  split; [reflexivity|].
  exact (draw_callback_locking Demo.env Demo.backed Demo.box Demo.cr Demo.info
           Demo.instance eq_refl).
Defined.

Lemma bg_paint_children (env : Env) (cr : cairo_t) (w : World)
    (l l0 : list GtkWidget) :
  List.filter is_bg_paint (child_events env cr w l ++ [Eg_list_free l0]) = [].
Proof.
  unfold child_events.
  induction (List.filter (env_visible env) l) as [|c l' IH];
    [reflexivity | exact IH].
Qed.

Lemma bg_paint_draw_events (env : Env) (cr : cairo_t) (w : World)
    (wdg : GtkWidget) (info : positive) (i : BackgroundInfo) :
  List.filter is_bg_paint (draw_events env cr w wdg info i)
  = match bg i with
    | Some s => [Ecairo_set_source_surface cr (Some s) 0%float 0%float;
                 Ecairo_paint_with_alpha cr (alpha i)]
    | None => []
    end.
Proof.
  unfold draw_events, bg_events.
  destruct (bg i); simpl; rewrite bg_paint_children; reflexivity.
Qed.

(** ** destroy *)

(** X8.  [background_info_clear] on an allocated instance releases the
    surface the instance holds, if it holds one, and nothing else, without
    taking the lock (with a surface held, the scan that wants surface
    changes under the lock stops), and frees the instance.  Afterwards the
    pointer is dead: a redraw through it, as the handler connected by
    create would do, and a second clear are undefined. *)
Theorem clear_releases_unlocked (env : Env) (w : World) (info : positive)
    (i : BackgroundInfo) :
  infos w !! info = Some i ->
  exists w' evs,
    background_info_clear info w = Some (tt, w') /\
    trace w' = trace w ++ evs /\
    infos w' = delete info (infos w) /\
    surfaces w' = release (bg i) (surfaces w) /\
    omap destroyed evs = option_list (bg i) /\
    existsb is_lock_call evs = false /\
    (forall s, bg i = Some s ->
       lock_scan info is_surface_change is_slow_call false evs = None) /\
    (forall wdg cr, background_info_draw_callback env wdg cr info w' = None) /\
    background_info_clear info w' = None.
Proof.
  intros Hi. eexists; eexists.
  split; [apply (clear_run w info i Hi)|].
  split; [reflexivity|]. simpl.
  split; [reflexivity|]. split; [reflexivity|].
  split; [destruct (bg i); reflexivity|].
  split; [destruct (bg i); reflexivity|].
  split; [intros s Hb; rewrite Hb; reflexivity|].
  split.
  - intros wdg cr. apply draw_callback_missing. simpl. apply lookup_delete_eq.
  - apply clear_missing. simpl. apply lookup_delete_eq.
Qed.

Lemma clear_releases_unlocked_witness :
  infos Demo.backed !! Demo.info = Some Demo.instance /\
  exists w' evs,
    background_info_clear Demo.info Demo.backed = Some (tt, w') /\
    trace w' = trace Demo.backed ++ evs /\
    omap destroyed evs = [Demo.old_surface] /\
    lock_scan Demo.info is_surface_change is_slow_call false evs = None /\
    background_info_draw_callback Demo.env Demo.box Demo.cr Demo.info w' = None.
Proof.
  split; [reflexivity|].
  destruct (clear_releases_unlocked Demo.env Demo.backed Demo.info
              Demo.instance eq_refl)
    as (w' & evs & Hrun & Htrace & _ & _ & Hd & _ & Hscan & Hdraw & _).
  exists w', evs. split; [exact Hrun|]. split; [exact Htrace|].
  split; [exact Hd|]. split; [exact (Hscan Demo.old_surface eq_refl)|].
  apply Hdraw.
Defined.

(** ** changeAlpha *)

(** X9.  [background_info_change_alpha] stores whatever value it is given,
    unclamped, without taking the lock and without touching a surface, and
    the next redraw of an instance with a surface paints that surface with
    exactly this opacity. *)
Theorem change_alpha_then_redraw (env : Env) (w : World) (wdg : GtkWidget)
    (cr : cairo_t) (info : positive) (i : BackgroundInfo)
    (s : cairo_surface_t) (a : gdouble) :
  infos w !! info = Some i ->
  bg i = Some s ->
  exists w1 w2 evs1 evs2,
    background_info_change_alpha env info a w = Some (tt, w1) /\
    trace w1 = trace w ++ evs1 /\
    existsb is_lock_call evs1 = false /\
    surfaces w1 = surfaces w /\
    background_info_draw_callback env wdg cr info w1 = Some (TRUE, w2) /\
    trace w2 = trace w1 ++ evs2 /\
    List.filter is_bg_paint evs2
    = [Ecairo_set_source_surface cr (Some s) 0%float 0%float;
       Ecairo_paint_with_alpha cr a].
Proof.
  intros Hi Hb. eexists; eexists; eexists; eexists.
  split; [apply (change_alpha_run env w info i a Hi)|].
  split; [reflexivity|]. split; [reflexivity|]. split; [reflexivity|].
  split; [apply draw_callback_run; simpl; apply lookup_insert_eq|].
  split; [reflexivity|].
  rewrite bg_paint_draw_events. simpl. rewrite Hb. reflexivity.
Qed.

Lemma change_alpha_then_redraw_witness :
  infos Demo.backed !! Demo.info = Some Demo.instance /\
  bg Demo.instance = Some Demo.old_surface /\
  exists w1 w2 evs2,
    background_info_change_alpha Demo.env Demo.info 2.5%float Demo.backed
    = Some (tt, w1) /\
    background_info_draw_callback Demo.env Demo.box Demo.cr Demo.info w1
    = Some (TRUE, w2) /\
    trace w2 = trace w1 ++ evs2 /\
    List.filter is_bg_paint evs2
    = [Ecairo_set_source_surface Demo.cr (Some Demo.old_surface) 0%float 0%float;
       Ecairo_paint_with_alpha Demo.cr 2.5%float].
Proof.
  split; [reflexivity|]. split; [reflexivity|].
  destruct (change_alpha_then_redraw Demo.env Demo.backed Demo.box Demo.cr
              Demo.info Demo.instance Demo.old_surface 2.5%float
              eq_refl eq_refl)
    as (w1 & w2 & evs1 & evs2 & Hone & _ & _ & _ & Hdraw & Htrace & Hpaint).
  exists w1, w2, evs2. repeat split; assumption.
Defined.

(** ** One setter after another *)

(** What a setter makes of an allocated instance: the instance and its
    surface are replaced, and once the surface of the instance is released
    the live surfaces are what they were with the old one released. *)
Lemma setter_step (env : Env) (w : World) (info : positive) (i : BackgroundInfo)
    (c : api_call) :
  infos w !! info = Some i ->
  is_setter_on info c ->
  exists w1 i1,
    run_call env c w = Some (tt, w1) /\
    infos w1 = <[info := i1]> (infos w) /\
    container i1 = container i /\ alpha i1 = alpha i /\
    release (bg i1) (surfaces w1) = release (bg i) (surfaces w) /\
    pixbufs w1 = pixbufs w /\ realized w1 = realized w /\ traps w1 = traps w.
Proof.
  intros Hi Hc. destruct c as [| |p d|p f| |]; simpl in Hc; try contradiction;
    subst p; simpl.
  - destruct (env_geometry env d) as [[wd ht]|] eqn:Hg.
    + rewrite (set_by_drawable_ok_run env w info i d wd ht Hi Hg).
      eexists; eexists. split; [reflexivity|]. simpl.
      split; [reflexivity|]. split; [reflexivity|]. split; [reflexivity|].
      split; [apply delete_insert_id, fresh_lookup_None|].
      repeat split.
    + rewrite (set_by_drawable_fail_run env w info d Hg).
      exists (set_trace
                (trace w ++
                 [EXGetGeometry (env_display env) d;
                  Eg_warning ("set_background_by_drawable invalid drawable %d " +:+ nl)
                    [ArgInt (gint_of d)]]) w), i.
      split; [reflexivity|]. simpl.
      split; [symmetry; apply insert_id; exact Hi|]. repeat split.
  - destruct (env_decode env f) as [e|img] eqn:Hd.
    + rewrite (set_by_file_fail_run env w info f e Hd).
      exists (set_trace
                (trace w ++
                 [Eg_message "background_info_set_background_by_file:%s" [ArgStr f];
                  Egdk_pixbuf_new_from_file f;
                  Eg_warning ("set_background_by_file failed: %s" +:+ nl)
                    [ArgStr (g_error_message e)];
                  Eg_error_free e]) w), i.
      split; [reflexivity|]. simpl.
      split; [symmetry; apply insert_id; exact Hi|]. repeat split.
    + rewrite (set_by_file_ok_run env w info i f img Hi Hd).
      eexists; eexists. split; [reflexivity|]. simpl.
      split; [reflexivity|]. split; [reflexivity|]. split; [reflexivity|].
      split; [apply delete_insert_id, fresh_lookup_None|].
      repeat split.
Qed.

Lemma widget_window_realized (env : Env) (w w' : World) (c : option GtkWidget) :
  realized w' = realized w -> widget_window env w' c = widget_window env w c.
Proof.
  intros Hr. unfold widget_window, is_realized. rewrite Hr. reflexivity.
Qed.

(** X10.  The last setter wins, up to the address of the new surface: two
    setters in a row on an allocated instance, of which the second gets
    through (its drawable has a geometry, its file decodes), end as the
    second alone does, whatever the first was and however it ended.  In
    both runs the instance keeps its [container] and [alpha] and holds a
    surface backed by the same object; apart from that surface the live
    surfaces are those of the start with the surface the instance held
    released (so what the first setter installed is gone); the other
    instances, the pixbufs, the realized widgets and the traps are the
    same.  With twice the same call: the setters are idempotent in this
    sense. *)
Theorem last_setter_wins (env : Env) (w : World) (info : positive)
    (i : BackgroundInfo) (c1 c2 : api_call) :
  infos w !! info = Some i ->
  is_setter_on info c1 ->
  is_setter_on info c2 ->
  setter_succeeds env c2 ->
  exists w12 w2 s12 s2 obj,
    run_calls env [c1; c2] w = Some (tt, w12) /\
    run_call env c2 w = Some (tt, w2) /\
    infos w12
    = <[info := mkBackgroundInfo (container i) (Some s12) (alpha i)]> (infos w) /\
    infos w2
    = <[info := mkBackgroundInfo (container i) (Some s2) (alpha i)]> (infos w) /\
    surfaces w12 !! s12 = Some obj /\
    surfaces w2 !! s2 = Some obj /\
    delete s12 (surfaces w12) = release (bg i) (surfaces w) /\
    delete s2 (surfaces w2) = release (bg i) (surfaces w) /\
    pixbufs w12 = pixbufs w2 /\ realized w12 = realized w2 /\
    traps w12 = traps w2.
Proof.
  intros Hi Hc1 Hc2 Hok.
  destruct (setter_step env w info i c1 Hi Hc1)
    as (w1 & i1 & Hrun1 & Hinfos1 & Hc & Ha & Hrel & Hp & Hr & Ht).
  assert (Hi1 : infos w1 !! info = Some i1).
  { rewrite Hinfos1. apply lookup_insert_eq. }
  simpl run_calls. unfold bind at 1. rewrite Hrun1. unfold bind, ret.
  destruct c2 as [| |p d|p f| |]; simpl in Hc2; try contradiction; subst p;
    simpl in Hok; simpl.
  - destruct Hok as [[wd ht] Hg].
    rewrite (set_by_drawable_ok_run env w1 info i1 d wd ht Hi1 Hg).
    rewrite (set_by_drawable_ok_run env w info i d wd ht Hi Hg).
    eexists; eexists; eexists; eexists; eexists.
    split; [reflexivity|]. split; [reflexivity|]. simpl.
    split; [rewrite Hinfos1, Hc, Ha, insert_insert_eq; reflexivity|].
    split; [reflexivity|].
    split; [apply lookup_insert_eq|].
    split; [apply lookup_insert_eq|].
    split; [rewrite Hrel; apply delete_insert_id, fresh_lookup_None|].
    split; [apply delete_insert_id, fresh_lookup_None|].
    rewrite Hp, Hr, Ht. repeat split.
  - destruct Hok as [img Hd].
    rewrite (set_by_file_ok_run env w1 info i1 f img Hi1 Hd).
    rewrite (set_by_file_ok_run env w info i f img Hi Hd).
    eexists; eexists; eexists; eexists; eexists.
    split; [reflexivity|]. split; [reflexivity|]. simpl.
    split; [rewrite Hinfos1, Hc, Ha, insert_insert_eq; reflexivity|].
    split; [reflexivity|].
    split; [rewrite (widget_window_realized env w w1 (container i1) Hr), Hc;
            apply lookup_insert_eq|].
    split; [apply lookup_insert_eq|].
    split; [rewrite Hrel; apply delete_insert_id, fresh_lookup_None|].
    split; [apply delete_insert_id, fresh_lookup_None|].
    rewrite Hp, Hr, Ht. repeat split.
Qed.

Lemma last_setter_wins_witness :
  infos Demo.backed !! Demo.info = Some Demo.instance /\
  exists w12 w2 s12 s2 obj,
    run_calls Demo.env
      [SetFile Demo.info "bg.png"; SetDrawable Demo.info 23068675] Demo.backed
    = Some (tt, w12) /\
    run_call Demo.env (SetDrawable Demo.info 23068675) Demo.backed
    = Some (tt, w2) /\
    infos w12 !! Demo.info
    = Some (mkBackgroundInfo (Some Demo.box) (Some s12) 0.5%float) /\
    infos w2 !! Demo.info
    = Some (mkBackgroundInfo (Some Demo.box) (Some s2) 0.5%float) /\
    surfaces w12 !! s12 = Some obj /\
    surfaces w2 !! s2 = Some obj /\
    delete s12 (surfaces w12) = delete s2 (surfaces w2).
Proof.
  split; [reflexivity|].
  assert (Hok : setter_succeeds Demo.env (SetDrawable Demo.info 23068675)).
  { exists (1920, 1080). reflexivity. }
  destruct (last_setter_wins Demo.env Demo.backed Demo.info Demo.instance
              (SetFile Demo.info "bg.png") (SetDrawable Demo.info 23068675)
              eq_refl eq_refl eq_refl Hok)
    as (w12 & w2 & s12 & s2 & obj & H12 & H2 & Hi12 & Hi2 & Hs12 & Hs2 & Hd12
        & Hd2 & _).
  exists w12, w2, s12, s2, obj.
  split; [exact H12|]. split; [exact H2|].
  split; [rewrite Hi12; apply lookup_insert_eq|].
  split; [rewrite Hi2; apply lookup_insert_eq|].
  split; [exact Hs12|]. split; [exact Hs2|].
  rewrite Hd12, Hd2. reflexivity.
Defined.

(** ** A setter, then a redraw *)

(** X11.  After [background_info_set_background_by_drawable] on a drawable
    with a geometry, the next redraw paints the new surface: its only
    background calls are to make that surface the source at (0,0) and to
    paint it with the opacity the instance had before the setter; the
    surface is the Xlib surface on the drawable, of the size that came out
    of the conversion of the queried width and height to [int]. *)
Theorem set_by_drawable_then_redraw (env : Env) (w : World) (wdg : GtkWidget)
    (cr : cairo_t) (info : positive) (i : BackgroundInfo)
    (drawable : guint32) (wd ht : guint) :
  infos w !! info = Some i ->
  env_geometry env drawable = Some (wd, ht) ->
  exists w1 w2 s evs,
    background_info_set_background_by_drawable env info drawable w
    = Some (tt, w1) /\
    surfaces w1 !! s
    = Some (XlibSurface (env_display env) drawable (env_visual env)
              (gint_of wd) (gint_of ht)) /\
    background_info_draw_callback env wdg cr info w1 = Some (TRUE, w2) /\
    trace w2 = trace w1 ++ evs /\
    List.filter is_bg_paint evs
    = [Ecairo_set_source_surface cr (Some s) 0%float 0%float;
       Ecairo_paint_with_alpha cr (alpha i)].
Proof.
  intros Hi Hg. eexists; eexists; eexists; eexists.
  split; [apply (set_by_drawable_ok_run env w info i drawable wd ht Hi Hg)|].
  simpl. split; [apply lookup_insert_eq|].
  split; [apply draw_callback_run; simpl; apply lookup_insert_eq|].
  split; [reflexivity|].
  rewrite bg_paint_draw_events. reflexivity.
Qed.

Lemma set_by_drawable_then_redraw_witness :
  infos Demo.backed !! Demo.info = Some Demo.instance /\
  env_geometry Demo.env 23068675 = Some (1920, 1080) /\
  exists w1 w2 s evs,
    background_info_set_background_by_drawable Demo.env Demo.info 23068675
      Demo.backed
    = Some (tt, w1) /\
    surfaces w1 !! s
    = Some (XlibSurface 1%positive 23068675 1%positive 1920 1080) /\
    background_info_draw_callback Demo.env Demo.box Demo.cr Demo.info w1
    = Some (TRUE, w2) /\
    trace w2 = trace w1 ++ evs /\
    List.filter is_bg_paint evs
    = [Ecairo_set_source_surface Demo.cr (Some s) 0%float 0%float;
       Ecairo_paint_with_alpha Demo.cr 0.5%float].
Proof.
  split; [reflexivity|]. split; [reflexivity|].
  exact (set_by_drawable_then_redraw Demo.env Demo.backed Demo.box Demo.cr
           Demo.info Demo.instance 23068675 1920 1080 eq_refl eq_refl).
Defined.

(** ** What create leaves *)

(** X12.  create, then setBackgroundFromFile on a file that decodes, then a
    redraw: the redraw paints the surface made from the image, with opacity
    1.  create never assigns [container], so the surface is made for the
    [NULL] window and the invalidation that ends the setter is asked for
    the [NULL] window. *)
Theorem create_file_redraw (env : Env) (w : World) (container child wdg : GtkWidget)
    (cr : cairo_t) (file : string) (img : image) :
  env_decode env file = inr img ->
  exists info w1 w2 w3 s evs2 evs3,
    create_background_info env container child w = Some (info, w1) /\
    background_info_set_background_by_file env info file w1 = Some (tt, w2) /\
    trace w2 = trace w1 ++ evs2 /\
    surfaces w2 !! s = Some (PixbufSurface img 1 None) /\
    List.filter is_invalidate evs2 = [Egdk_window_invalidate_rect None None FALSE] /\
    background_info_draw_callback env wdg cr info w2 = Some (TRUE, w3) /\
    trace w3 = trace w2 ++ evs3 /\
    List.filter is_bg_paint evs3
    = [Ecairo_set_source_surface cr (Some s) 0%float 0%float;
       Ecairo_paint_with_alpha cr 1%float].
Proof.
  intros Hd. eexists; eexists; eexists; eexists; eexists; eexists; eexists.
  split; [apply create_run|].
  split; [erewrite set_by_file_ok_run;
          [reflexivity | simpl; apply lookup_insert_eq | exact Hd]|].
  simpl. split; [reflexivity|].
  split; [apply lookup_insert_eq|].
  split; [reflexivity|].
  split; [apply draw_callback_run; simpl; apply lookup_insert_eq|].
  split; [reflexivity|].
  rewrite bg_paint_draw_events. reflexivity.
Qed.

Lemma create_file_redraw_witness :
  env_decode Demo.env "bg.png" = inr Demo.bg_png /\
  exists info w1 w2 w3 s evs3,
    create_background_info Demo.env Demo.box Demo.overlay Demo.empty
    = Some (info, w1) /\
    background_info_set_background_by_file Demo.env info "bg.png" w1
    = Some (tt, w2) /\
    surfaces w2 !! s = Some (PixbufSurface Demo.bg_png 1 None) /\
    background_info_draw_callback Demo.env Demo.box Demo.cr info w2
    = Some (TRUE, w3) /\
    trace w3 = trace w2 ++ evs3 /\
    List.filter is_bg_paint evs3
    = [Ecairo_set_source_surface Demo.cr (Some s) 0%float 0%float;
       Ecairo_paint_with_alpha Demo.cr 1%float].
Proof.
  split; [reflexivity|].
  destruct (create_file_redraw Demo.env Demo.empty Demo.box Demo.overlay
              Demo.box Demo.cr "bg.png" Demo.bg_png eq_refl)
    as (info & w1 & w2 & w3 & s & evs2 & evs3 & Hc & Hs & _ & Hsurf & _ & Hd
        & Ht & Hp).
  exists info, w1, w2, w3, s, evs3. repeat split; assumption.
Defined.

(** X13.  create, then changeAlpha on the instance it returned: the value
    is stored and the one invalidation that follows is asked for the
    [NULL] window, since create left [container] [NULL]; no window of the
    container is named. *)
Theorem create_change_alpha (env : Env) (w : World) (container child : GtkWidget)
    (a : gdouble) :
  exists info w1 w2,
    create_background_info env container child w = Some (info, w1) /\
    background_info_change_alpha env info a w1 = Some (tt, w2) /\
    infos w2 !! info = Some (mkBackgroundInfo None None a) /\
    trace w2
    = trace w1 ++
      [Eset_alpha info a; Egdk_window_invalidate_rect None None FALSE].
Proof.
  eexists; eexists; eexists.
  split; [apply create_run|].
  split; [apply change_alpha_run; simpl; apply lookup_insert_eq|].
  simpl. split; [apply lookup_insert_eq | reflexivity].
Qed.

(** X14.  create realizes the child before it asks for its window and the
    container before it asks for its window: whatever was realized before,
    [gdk_window_set_composited] gets the child's window and
    [gdk_window_set_background_rgba] the container's, never [NULL]; the
    draw handler is connected to the container with the new instance as its
    data; and both widgets are realized afterwards, with all that were. *)
Theorem create_realizes (env : Env) (w : World) (container child : GtkWidget) :
  exists info w',
    create_background_info env container child w = Some (info, w') /\
    is_realized w' child = true /\
    is_realized w' container = true /\
    (forall c, is_realized w c = true -> is_realized w' c = true) /\
    trace w'
    = trace w ++
      [Eg_message "create_background_info" [];
       Eg_new0 info;
       Eg_mutex_init info;
       Eset_alpha info 1%float;
       Egtk_widget_realize child;
       Egdk_window_set_composited (Some (env_window env child)) TRUE;
       Eg_signal_connect container "draw" info;
       Egtk_widget_realize container;
       Egdk_window_set_background_rgba (Some (env_window env container))
         (mkRGBA 0%float 0%float 0%float 0%float)].
Proof.
  eexists; eexists. split; [apply create_run|].
  unfold is_realized. simpl.
  split; [apply bool_decide_eq_true_2; set_solver|].
  split; [apply bool_decide_eq_true_2; set_solver|].
  split; [|reflexivity].
  intros c Hc. apply bool_decide_eq_true_1 in Hc.
  apply bool_decide_eq_true_2. set_solver.
Qed.

(** ** The warning of an invalid drawable *)

Lemma gint_of_guint32 (d : Z) :
  0 <= d < 2 ^ 32 ->
  gint_of d = if d <? 2 ^ 31 then d else d - 2 ^ 32.
Proof.
  unfold gint_of.
  change (2 ^ 32) with 4294967296. change (2 ^ 31) with 2147483648.
  intros Hrange. destruct (Z.ltb_spec d 2147483648) as [Hlt|Hge].
  - rewrite Z.mod_small by lia. lia.
  - replace (d + 2147483648) with (d - 2147483648 + 1 * 4294967296) by lia.
    rewrite Z.mod_add by lia. rewrite Z.mod_small by lia. lia.
Qed.

(** X15.  The warning for an invalid drawable prints the [guint32] with
    [%d]: an identifier below 2^31 is logged as it is, one from 2^31 on as
    the negative number 2^32 less (0xFFFFFFFF as -1). *)
Theorem invalid_drawable_logged_signed (env : Env) (w : World) (info : positive)
    (drawable : guint32) :
  env_geometry env drawable = None ->
  0 <= drawable < 2 ^ 32 ->
  exists w' evs,
    background_info_set_background_by_drawable env info drawable w = Some (tt, w') /\
    trace w' = trace w ++ evs /\
    List.filter is_warning evs
    = [Eg_warning ("set_background_by_drawable invalid drawable %d " +:+ nl)
         [ArgInt (if drawable <? 2 ^ 31 then drawable else drawable - 2 ^ 32)]].
Proof.
  intros Hg Hrange. eexists; eexists.
  split; [apply (set_by_drawable_fail_run env w info drawable Hg)|].
  split; [reflexivity|].
  rewrite (gint_of_guint32 drawable Hrange). reflexivity.
Qed.

Lemma invalid_drawable_logged_signed_witness :
  env_geometry Demo.env 4294967295 = None /\
  exists w' evs,
    background_info_set_background_by_drawable Demo.env Demo.info 4294967295
      Demo.backed
    = Some (tt, w') /\
    trace w' = trace Demo.backed ++ evs /\
    List.filter is_warning evs
    = [Eg_warning ("set_background_by_drawable invalid drawable %d " +:+ nl)
         [ArgInt (-1)]].
Proof.
  split; [reflexivity|].
  assert (Hrange : 0 <= 4294967295 < 2 ^ 32)
    by (split; [discriminate | reflexivity]).
  exact (invalid_drawable_logged_signed Demo.env Demo.backed Demo.info
           4294967295 eq_refl Hrange).
Defined.

(** ** changeAlpha and the setters *)


